(** * UnoSim UI audit scripts: a shallow embedding

    Three independent Python scripts are embedded here, one module each:

    - [ButtonSizes]       scripts/collect-button-sizes.py
    - [VerifyTypography]  verify-typography.py
    - [MeasureFontSizes]  archive/typography2/measure_font_sizes.py

    Module [Py] holds the pieces of the Python runtime the scripts lean on:
    exceptions, [str] of an int, the [in] test on strings, [round(x, 2)] and
    the fixed-point format specs on binary64 floats.  Python floats are
    modelled by Rocq's primitive binary64 floats, strings by byte strings
    (non-ASCII text is its UTF-8 encoding). Console output is not modelled. *)

From Stdlib Require Import ZArith List String Ascii Bool Lia.
From Stdlib Require Import DecimalString Floats.
Import ListNotations.

Local Open Scope list_scope.
Local Open Scope string_scope.

(* ================================================================= *)
(** ** Python runtime *)

Module Py.

(** What a call to the remote browser, or the parse of its answer, can
    raise: selenium's two named exceptions, or any other [Exception], kept
    by its [str(e)]. *)
Inductive fault : Type :=
| TimeoutException
| NoSuchElementException
| OtherException (msg : string).

(** The exceptions that can travel through the three scripts. *)
Inductive exn : Type :=
| Selenium (f : fault)
| KeyError (key : string)
| OSError (path : string)
| ZeroDivisionError
| SystemExit (code : Z)
| TypeError
| UnicodeDecodeError.

Inductive result (A : Type) : Type :=
| Returned (a : A)
| Raised (e : exn).
Arguments Returned {A} a.
Arguments Raised {A} e.

(** A line feed, and a double quote for the selectors that hold one. *)
Definition nl : string := String (ascii_of_nat 10) EmptyString.
Definition dq : string := String (ascii_of_nat 34) EmptyString.

(** A value taken from the JSON config as the reports see it: [None] for a
    JSON null, and for anything else its [str()] text (a JSON string is its
    own text). A string is read as such a value where one is expected. *)
Inductive cell : Type :=
| Text (s : string)
| PyNone.
Coercion Text : string >-> cell.

(** [str(v)], which is also what an f-string field shows. *)
Definition str_cell (v : cell) : string :=
  match v with
  | Text s => s
  | PyNone => "None"
  end.

(** What [csv.writer] writes for a value: [None] becomes the empty string,
    anything else its [str()]. *)
Definition csv_cell (v : cell) : string :=
  match v with
  | Text s => s
  | PyNone => ""
  end.

(** Truthiness of a string: only the empty string is falsy. *)
Definition truthy (s : string) : bool :=
  match s with EmptyString => false | String _ _ => true end.

(** [str(n)] for an int. *)
Definition str_int (n : Z) : string := NilZero.string_of_int (Z.to_int n).

(** [needle in hay] for two strings: [needle] occurs at some offset. *)
Fixpoint contains (needle hay : string) : bool :=
  prefix needle hay ||
  match hay with
  | EmptyString => false
  | String _ rest => contains needle rest
  end.

(** [d.get(k, default)] and the iteration order of a dict literal: a dict is
    kept as the list of its items in insertion order. *)
Fixpoint dict_get (d : list (string * string)) (k default : string) : string :=
  match d with
  | [] => default
  | (k', v) :: rest => if String.eqb k' k then v else dict_get rest k default
  end.

(** [d[k]]: raises [KeyError] on a missing key. *)
Fixpoint dict_index (d : list (string * string)) (k : string) : result string :=
  match d with
  | [] => Raised (KeyError k)
  | (k', v) :: rest => if String.eqb k' k then Returned v else dict_index rest k
  end.

Definition keys (d : list (string * string)) : list string := map fst d.

(** *** Floats *)

(** [num / den] rounded to the nearest integer, ties to even ([den > 0]). *)
Definition round_half_even (num den : Z) : Z :=
  let q := (num / den)%Z in
  let r := (num mod den)%Z in
  match (2 * r ?= den)%Z with
  | Lt => q
  | Gt => (q + 1)%Z
  | Eq => if Z.even q then q else (q + 1)%Z
  end.

(** The exact value [m * 2^e] times [k], rounded half-even to an integer.
    This is the digit string a correctly rounded decimal conversion
    produces for a fixed number of places ([k] is the power of ten). *)
Definition scaled (k : Z) (m : positive) (e : Z) : Z :=
  if (0 <=? e)%Z
  then (Zpos m * 2 ^ e * k)%Z
  else round_half_even (Zpos m * k) (2 ^ (- e)).

(** [round(x, 2)]: nans and infinities round to themselves; a finite [x]
    goes to the decimal with two places nearest to its exact value (ties to
    even) and back to the nearest float, the sign kept (also on zero). *)
Definition round2 (x : float) : float :=
  match Prim2SF x with
  | S754_finite s m e =>
      match scaled 100 m e with
      | Zpos n =>
          SF2Prim (SFdiv prec emax (S754_finite s n 0) (S754_finite false 100 0))
      | _ => if s then neg_zero else zero
      end
  | _ => x
  end.

(** The sign column of a format spec: [plus] is the [+] flag. *)
Definition sign_str (plus neg : bool) : string :=
  if neg then "-" else if plus then "+" else "".

(** [format(x, '.1f')] and, with [plus], [format(x, '+.1f')]. The sign of a
    nan is dropped. *)
Definition format_1f (plus : bool) (x : float) : string :=
  match Prim2SF x with
  | S754_nan => sign_str plus false ++ "nan"
  | S754_infinity s => sign_str plus s ++ "inf"
  | S754_zero s => sign_str plus s ++ "0.0"
  | S754_finite s m e =>
      let n := scaled 10 m e in
      sign_str plus s ++ str_int (n / 10) ++ "." ++ str_int (n mod 10)
  end.

(** An int as a float: exact for [|n| < 2^53], which covers the preset
    sizes and every row count. *)
Definition float_of_int (n : Z) : float :=
  if (n <? 0)%Z
  then PrimFloat.opp (PrimFloat.of_uint63 (Uint63.of_Z (- n)))
  else PrimFloat.of_uint63 (Uint63.of_Z n).

(** [a / b] on ints (true division). *)
Definition true_div (a b : Z) : result float :=
  if (b =? 0)%Z then Raised ZeroDivisionError
  else Returned (PrimFloat.div (float_of_int a) (float_of_int b)).

End Py.

(* ================================================================= *)
(** ** scripts/collect-button-sizes.py *)

Module ButtonSizes.
Import Py.

(** The regular expressions that cut a class string out of a source file
    stay outside: what follows is the part of the loop body that starts
    from the collapsed [cls_text], and it is stated for any string. *)

(** Tailwind height token to px mapping, in the order of the dict literal. *)
Definition TW_H_MAP : list (string * string) :=
  [ ("h-4", "16px");
    ("h-5", "20px");
    ("h-6", "24px");
    ("h-7", "28px");
    ("h-8", "32px");
    ("h-9", "36px");
    ("h-10", "40px");
    ("h-11", "44px") ].

Definition H_VAR : string := "h-[var(--ui-button-height)]".
Definition HEIGHT_VAR_PX : string := "32px (var(--ui-button-height))".
Definition HEIGHT_DEFAULT : string := "button-variant-default (32px expected)".

(** The [for token in TW_H_MAP.keys(): if token in cls_text: ...; break]
    loop: the first key, in dict order, that occurs in [cls_text]. *)
Fixpoint first_token (tokens : list string) (cls_text : string) : option string :=
  match tokens with
  | [] => None
  | token :: rest =>
      if contains token cls_text then Some token else first_token rest cls_text
  end.

Definition h_var (cls_text : string) : bool := contains H_VAR cls_text.

Definition h_token (cls_text : string) : option string :=
  first_token (keys TW_H_MAP) cls_text.

(** The [if h_var / elif h_token / else] cascade on the collapsed class
    string of one [<Button ...>] match. *)
Definition height_px (cls_text : string) : string :=
  if h_var cls_text then HEIGHT_VAR_PX
  else match h_token cls_text with
       | Some token =>
           if truthy token then dict_get TW_H_MAP token "unknown"
           else HEIGHT_DEFAULT
       | None => HEIGHT_DEFAULT
       end.

(** The classes of a collapsed class string: its items between single
    spaces ([cls_text.split(' ')]). A token is standalone in a class string
    when it is one of these items. *)
Fixpoint classes (cls_text : string) : list string :=
  match cls_text with
  | EmptyString => [EmptyString]
  | String c rest =>
      if Ascii.eqb c " " then EmptyString :: classes rest
      else match classes rest with
           | w :: ws => String c w :: ws
           | [] => [String c EmptyString]
           end
  end.

(** *** Width *)

Definition W_VAR : string := "w-[var(--ui-button-height)]".
Definition WIDTH_ICON : string := "32px (icon -> square)".
Definition WIDTH_AUTO : string := "auto / content".

Section Width.

(** [str.isdigit], a test on Unicode decimal digits, is kept abstract. *)
Variable isdigit : string -> bool.

(** The width cascade. [w_match] is what the width regular expression
    found in [cls_text] ([group(0)] of the match), [chunk] the text between
    the tag name and the closing bracket. *)
Definition width_px (w_match : option string) (chunk : string) : string :=
  match w_match with
  | Some w =>
      if String.eqb w W_VAR then HEIGHT_VAR_PX
      else if prefix "w-" w && isdigit (substring 2 (String.length w - 2) w)
           then w
           else w
  | None =>
      if contains "icon" chunk || contains ("size=" ++ dq ++ "icon" ++ dq) chunk
      then WIDTH_ICON
      else WIDTH_AUTO
  end.

End Width.

(** *** An exact reading of the class list, for comparison *)

(** The first table key, in table order, that is one of the classes.
    This is not what the script computes: it is the lookup by whole class
    that [h_token] is compared with below. *)
Fixpoint first_class (tokens : list string) (cls : list string) : option string :=
  match tokens with
  | [] => None
  | token :: rest =>
      if existsb (String.eqb token) cls then Some token
      else first_class rest cls
  end.

Definition exact_token (cls_text : string) : option string :=
  first_class (keys TW_H_MAP) (classes cls_text).

(** No class of the string merely contains a table key: a class in which
    a key occurs is that key. *)
Definition keys_only_as_classes (cls_text : string) : bool :=
  forallb (fun w =>
             forallb (fun k => implb (contains k w) (String.eqb w k))
                     (keys TW_H_MAP))
          (classes cls_text).

(** *** Collapsing whitespace *)

(** How many bytes the whitespace character at the head of [s] takes in
    UTF-8, or 0 when [s] does not start with one. Whitespace is what both
    [str.strip] and the class [\s] take it to be: U+0009 to U+000D, U+001C
    to U+0020, U+0085, U+00A0, U+1680, U+2000 to U+200A, U+2028, U+2029,
    U+202F, U+205F and U+3000. *)
Definition space_width (s : string) : nat :=
  match s with
  | EmptyString => 0
  | String b0 rest0 =>
      let n0 := nat_of_ascii b0 in
      if ((9 <=? n0) && (n0 <=? 13)) || ((28 <=? n0) && (n0 <=? 32)) then 1
      else
        match rest0 with
        | EmptyString => 0
        | String b1 rest1 =>
            let n1 := nat_of_ascii b1 in
            if (n0 =? 194) && ((n1 =? 133) || (n1 =? 160)) then 2
            else
              match rest1 with
              | EmptyString => 0
              | String b2 _ =>
                  let n2 := nat_of_ascii b2 in
                  if ((n0 =? 225) && (n1 =? 154) && (n2 =? 128))
                     || ((n0 =? 226) && (n1 =? 128)
                         && (((128 <=? n2) && (n2 <=? 138))
                             || (n2 =? 168) || (n2 =? 169) || (n2 =? 175)))
                     || ((n0 =? 226) && (n1 =? 129) && (n2 =? 159))
                     || ((n0 =? 227) && (n1 =? 128) && (n2 =? 128))
                  then 3
                  else 0
              end
        end
  end%nat.

(** The text as the two calls see it: one [Blank] per whitespace
    character, whichever it is, and the bytes of everything else. *)
Inductive glyph : Type :=
| Blank
| Byte (b : ascii).

(** [skip] counts the bytes still to pass over of a whitespace character
    already emitted. *)
Fixpoint glyphs_from (s : string) (skip : nat) : list glyph :=
  match s with
  | EmptyString => []
  | String b rest =>
      match skip with
      | S k => glyphs_from rest k
      | O =>
          match space_width s with
          | O => Byte b :: glyphs_from rest 0
          | S k => Blank :: glyphs_from rest k
          end
      end
  end.

Definition glyphs (s : string) : list glyph := glyphs_from s 0.

(** [lstrip] and [rstrip], and [strip] as both. *)
Fixpoint lstrip (g : list glyph) : list glyph :=
  match g with
  | Blank :: rest => lstrip rest
  | _ => g
  end.

Fixpoint rstrip (g : list glyph) : list glyph :=
  match g with
  | [] => []
  | x :: rest =>
      match x, rstrip rest with
      | Blank, [] => []
      | _, kept => x :: kept
      end
  end.

Definition strip (g : list glyph) : list glyph := rstrip (lstrip g).

(** [re.sub(r'\s+', ' ', text)]: every maximal run of whitespace becomes
    one space; [in_run] tells that the run at hand already gave its space. *)
Fixpoint sub_spaces (in_run : bool) (g : list glyph) : string :=
  match g with
  | [] => EmptyString
  | Byte b :: rest => String b (sub_spaces false rest)
  | Blank :: rest =>
      if in_run then sub_spaces true rest
      else String " " (sub_spaces true rest)
  end.

(** [cls_text = re.sub(r'\s+', ' ', cls_text.strip())] *)
Definition collapse (cls_text : string) : string :=
  sub_spaces false (strip (glyphs cls_text)).

(** For comparison, [text.split()] and [' '.join(words)]: the pieces
    between whitespace characters, the empty ones dropped. *)
Fixpoint pieces (g : list glyph) : list string :=
  match g with
  | [] => [EmptyString]
  | Blank :: rest => EmptyString :: pieces rest
  | Byte b :: rest =>
      match pieces rest with
      | w :: ws => String b w :: ws
      | [] => [String b EmptyString]
      end
  end.

Definition split_fields (g : list glyph) : list string :=
  filter truthy (pieces g).

Fixpoint join_spaces (words : list string) : string :=
  match words with
  | [] => EmptyString
  | [w] => w
  | w :: rest => w ++ " " ++ join_spaces rest
  end.

(** What follows the first word of a joined line. *)
Definition after_first (more : list string) : string :=
  match more with
  | [] => EmptyString
  | _ :: _ => " " ++ join_spaces more
  end.

End ButtonSizes.

(* ================================================================= *)
(** ** verify-typography.py *)

Module VerifyTypography.
Import Py.

(** Expected font sizes of the unified scale. *)
Definition EXPECTED_SIZES : list (string * string) :=
  [ ("text-ui-xs", "12px");
    ("text-ui-sm", "14px");
    ("text-ui-md", "16px");
    ("text-ui-lg", "18px");
    ("text-ui-xl", "20px");
    ("text-ui-2xl", "24px");
    ("text-ui-3xl", "30px") ].

Record test_case : Type := {
  component : string;
  selector : string;
  expected : string
}.

Definition TEST_CASES : list test_case :=
  [ {| component := "Button (default)"; selector := "button";
       expected := "text-ui-sm" |};
    {| component := "Badge"; selector := ".inline-flex.items-center.rounded-full";
       expected := "text-ui-xs" |};
    {| component := "Input Field";
       selector := "input[type=" ++ dq ++ "text" ++ dq ++ "]";
       expected := "text-ui-md" |};
    {| component := "Label"; selector := "label"; expected := "text-ui-sm" |};
    {| component := "Dropdown Menu Item";
       selector := "[role=" ++ dq ++ "menuitem" ++ dq ++ "]";
       expected := "text-ui-sm" |};
    {| component := "Tab Trigger";
       selector := "[role=" ++ dq ++ "tab" ++ dq ++ "]";
       expected := "text-ui-sm" |};
    {| component := "Toast Title"; selector := "[data-title]";
       expected := "text-ui-sm" |};
    {| component := "Dialog Title";
       selector := "h2[id*=" ++ dq ++ "dialog" ++ dq ++ "]";
       expected := "text-ui-lg" |};
    {| component := "Compilation Output";
       selector := "[data-testid=" ++ dq ++ "compilation-text" ++ dq ++ "]";
       expected := "text-ui-sm" |};
    {| component := "Serial Monitor";
       selector := "[data-testid=" ++ dq ++ "serial-output" ++ dq ++ "]";
       expected := "text-ui-xs" |};
    {| component := "Parser Analysis Header"; selector := ".bg-muted .text-white";
       expected := "text-ui-sm" |} ].

(** The stand-in for DOM inspection. [verify_typography] never calls it. *)
Definition get_computed_style_via_js (url selector : string) : string :=
  dict_get EXPECTED_SIZES selector "14px".

(** One entry of [results]. *)
Record verdict : Type := {
  v_component : string;
  v_expected_token : string;
  v_expected_size : string;
  v_actual_size : string;
  v_status : string
}.

Definition PASS : string := "✓ PASS".
Definition FAIL : string := "✗ FAIL".

(** The body of the [for test in TEST_CASES] loop: the verdict and [passed]. *)
Definition check (test : test_case) : result (verdict * bool) :=
  let component := component test in
  let expected_token := expected test in
  match dict_index EXPECTED_SIZES expected_token with
  | Raised e => Raised e
  | Returned expected_size =>
      let actual_size := expected_size in
      let passed := String.eqb actual_size expected_size in
      let status := if passed then PASS else FAIL in
      Returned ({| v_component := component;
                   v_expected_token := expected_token;
                   v_expected_size := expected_size;
                   v_actual_size := actual_size;
                   v_status := status |}, passed)
  end.

(** The loop, threading [results] and [all_pass]. *)
Fixpoint run_cases (tests : list test_case) (results : list verdict)
    (all_pass : bool) : result (list verdict * bool) :=
  match tests with
  | [] => Returned (results, all_pass)
  | test :: rest =>
      match check test with
      | Raised e => Raised e
      | Returned (r, passed) =>
          run_cases rest (results ++ [r])%list (all_pass && passed)
      end
  end.

Definition EVIDENCE_PATH : string :=
  "/Users/to/sciebo/TT_Web/UNOWEBSIM_github_dupe/typography-verification-evidence.json".

(** The object handed to [json.dump]. *)
Record evidence : Type := {
  timestamp : string;
  url : string;
  scale : list (string * string);
  results : list verdict;
  all_passed : bool
}.

(** The machine the stub runs on: which paths [open(path, 'w')] can open,
    and what [time.strftime] answers. *)
Record host : Type := {
  writable : string -> bool;
  strftime : string
}.

Record run : Type := {
  saved : option evidence;      (* what reached the evidence file *)
  outcome : result bool
}.

Definition verify_typography (h : host) : run :=
  match run_cases TEST_CASES [] true with
  | Raised e => {| saved := None; outcome := Raised e |}
  | Returned (results, all_pass) =>
      if writable h EVIDENCE_PATH
      then {| saved := Some {| timestamp := strftime h;
                               url := "http://localhost:3001";
                               scale := EXPECTED_SIZES;
                               results := results;
                               all_passed := all_pass |};
              outcome := Returned all_pass |}
      else {| saved := None; outcome := Raised (OSError EVIDENCE_PATH) |}
  end.

(** The verdict on a table entry as the stub builds it: the entry's
    component and token, the size of that token in the scale, the same size
    again as the one it claims to have read, and the status that says so. *)
Definition echoes (test : test_case) (v : verdict) : Prop :=
  v_component v = component test /\
  v_expected_token v = expected test /\
  dict_index EXPECTED_SIZES (expected test) = Returned (v_expected_size v) /\
  v_actual_size v = v_expected_size v /\
  v_status v = PASS.

End VerifyTypography.

(* ================================================================= *)
(** ** archive/typography2/measure_font_sizes.py *)

Module MeasureFontSizes.
Import Py.

(** (label, scale factor, expected px) *)
Definition FONT_SCALES : list (string * float * Z) :=
  [ ("S", 0.875%float, 12%Z);
    ("M", 1%float, 14%Z);
    ("L", 1.125%float, 16%Z);
    ("XL", 1.25%float, 18%Z);
    ("XXL", 1.5%float, 20%Z) ].

(** One object of the JSON selector list that has both keys the loop
    indexes, [{name, selector, description?}]: the values of the two keys,
    and the value of [description] when the key is there ([Some PyNone] for
    a JSON null). *)
Record comp : Type := {
  name : cell;
  selector : cell;
  description : option cell
}.

(** *** The remote browser *)

(** What the script asks of the browser. [Probe] stands for the whole [try]
    block of [measure_font_size]: the bounded wait, [find_element], the two
    [execute_script] reads and the parse of the size. *)
Inductive command : Type :=
| Get (url : string)
| WaitBody
| SetScale (scale_value : float)
| Probe (selector : cell)
| Quit.

(** How a [Probe] ends: [float(size.replace('px', ''))], or an exception. *)
Inductive attempt : Type :=
| Got (size : float)
| Threw (f : fault).

(** The browser and the page behind it: each answer may depend on every
    command sent so far, the current one first. *)
Record browser : Type := {
  on_get : list command -> option fault;
  on_wait_body : list command -> option fault;
  on_set_scale : list command -> option fault;
  on_probe : list command -> attempt;
  on_quit : list command -> option fault
}.

(** A live session: the browser, and the commands sent, latest first. *)
Record driver : Type := {
  remote : browser;
  sent : list command
}.

Definition send (d : driver) (c : command) : driver :=
  {| remote := remote d; sent := c :: sent d |}.

Definition answer (r : option fault) : result unit :=
  match r with
  | None => Returned tt
  | Some f => Raised (Selenium f)
  end.

Definition driver_get (d : driver) (url : string) : driver * result unit :=
  let d' := send d (Get url) in (d', answer (on_get (remote d) (sent d'))).

Definition wait_body (d : driver) : driver * result unit :=
  let d' := send d WaitBody in (d', answer (on_wait_body (remote d) (sent d'))).

Definition driver_quit (d : driver) : driver * result unit :=
  let d' := send d Quit in (d', answer (on_quit (remote d) (sent d'))).

(** *** The machine the auditor runs on *)

(** What is wrong with the first entry the loop cannot index: an object
    without the key ([comp['name']] is read first, then
    [comp['selector']]), or a value that is no object at all. *)
Inductive breakage : Type :=
| MissingKey (key : string)         (* KeyError *)
| NotAnObject.                      (* TypeError *)

(** What [open] and [json.load] make of the config path. A loaded value is
    [Parsed selectors] when iterating it gives only objects with both
    keys (an empty array, object or string is [Parsed []]);
    [Ragged good bad more] when the entries [good] are followed by one
    that is broken and by [more] entries after it; and [NotIterable] when
    it is a number, a boolean or null. *)
Inductive config_file : Type :=
| Missing                           (* FileNotFoundError *)
| Unopenable                        (* another OSError: a directory, no permission *)
| Undecodable                       (* UnicodeDecodeError: not UTF-8 *)
| Malformed                         (* json.JSONDecodeError *)
| NotIterable
| Parsed (selectors : list comp)
| Ragged (good : list comp) (bad : breakage) (more : nat).

(** How starting Chrome goes: [webdriver.Chrome] raises; or it creates the
    session and [set_page_load_timeout(30)] raises; or both go through. *)
Inductive startup : Type :=
| NoChrome
| TimeoutRefused (b : browser)
| Ready (b : browser).

Record host : Type := {
  read_config : string -> config_file;
  launch : bool -> startup;         (* the [try] block of [init_driver], by [headless] *)
  writable : string -> bool;        (* can [open(path, 'w')] open it *)
  strftime : string                 (* [time.strftime('%Y-%m-%d %H:%M:%S')] *)
}.

(** The browser of the session [init_driver] hands back, when its [try]
    block goes through. *)
Definition chrome (h : host) (headless : bool) : option browser :=
  match launch h headless with
  | Ready b => Some b
  | NoChrome => None
  | TimeoutRefused _ => None
  end.

(** The browser of a session [init_driver] created and then left behind,
    exiting without a [quit]. *)
Definition orphan (h : host) (headless : bool) : option browser :=
  match launch h headless with
  | TimeoutRefused b => Some b
  | NoChrome => None
  | Ready _ => None
  end.

Record args : Type := {
  url : string;
  config : string;
  output : string;
  csv : string;
  no_headless : bool
}.

(** The value [json.load] returned. *)
Inductive document : Type :=
| Regular (selectors : list comp)
| Irregular (good : list comp) (bad : breakage) (more : nat)
| Scalar.

(** Only [FileNotFoundError] and [json.JSONDecodeError] are caught; what
    else [open] or [json.load] raises leaves the function as it is. *)
Definition load_selectors (h : host) (config_path : string)
    : result document :=
  match read_config h config_path with
  | Parsed selectors => Returned (Regular selectors)
  | Ragged good bad more => Returned (Irregular good bad more)
  | NotIterable => Returned Scalar
  | Missing => Raised (SystemExit 1)
  | Malformed => Raised (SystemExit 1)
  | Unopenable => Raised (OSError config_path)
  | Undecodable => Raised UnicodeDecodeError
  end.

(** [len(selectors)], in the message printed before the browser starts. *)
Definition len (doc : document) : result nat :=
  match doc with
  | Regular selectors => Returned (List.length selectors)
  | Irregular good _ more => Returned (List.length good + 1 + more)
  | Scalar => Raised TypeError
  end.

(** [webdriver.Chrome(options=...)] and [set_page_load_timeout(30)] stand in
    one [try]: whatever either of them raises ends in [sys.exit(1)], and
    the handler does not quit a session the first call has created. The
    first component is the browser of such a session. *)
Definition init_driver (h : host) (headless : bool)
    : option browser * result driver :=
  match launch h headless with
  | Ready b => (None, Returned {| remote := b; sent := [] |})
  | TimeoutRefused b => (Some b, Raised (SystemExit 1))
  | NoChrome => (None, Raised (SystemExit 1))
  end.

(** *** Measuring *)

(** Returns [True], or [False] when the script raised. *)
Definition set_font_scale (d : driver) (scale_value : float) : driver * bool :=
  let d' := send d (SetScale scale_value) in
  (d', match on_set_scale (remote d) (sent d') with
       | None => true
       | Some _ => false
       end).

(** Returns [(measured, status, error)]. *)
Definition measure_font_size (d : driver) (selector component_name : cell)
    : driver * (option float * string * option string) :=
  let d' := send d (Probe selector) in
  (d', match on_probe (remote d) (sent d') with
       | Got size => (Some size, "✓", None)
       | Threw TimeoutException =>
           (None, "Timeout", Some "Element nicht innerhalb von 3s gefunden")
       | Threw NoSuchElementException =>
           (None, "Nicht gefunden", Some "Selektor matched kein Element")
       | Threw (OtherException msg) => (None, "Fehler", Some msg)
       end).

(** One dict of [results]. *)
Record row : Type := {
  Komponente : cell;
  Beschreibung : cell;
  CSS_Selektor : cell;
  Skalierung : string;
  Gemessene_Groesse : string;   (* key: Gemessene Größe (px) *)
  Erwartet : Z;                 (* key: Erwartet (px) *)
  Status : string;
  Abweichung : string
}.

Definition CHECK : string := "✓".
Definition CROSS : string := "✗".

(** [abweichung = round(measured - expected_px, 2)] *)
Definition abweichung (measured : float) (expected_px : Z) : float :=
  round2 (PrimFloat.sub measured (float_of_int expected_px)).

(** [error or 'N/A'] *)
Definition error_or_na (error : option string) : string :=
  match error with
  | Some msg => if truthy msg then msg else "N/A"
  | None => "N/A"
  end.

(** The body of the [for comp in selectors] loop: one probe, one row. *)
Definition measure_component (label : string) (expected_px : Z)
    (d : driver) (c : comp) : driver * row :=
  let name := name c in
  let selector := selector c in
  (* comp.get('description', ''): the default only when the key is absent *)
  let description :=
    match description c with Some v => v | None => Text "" end in
  let '(d', (measured, status, error)) := measure_font_size d selector name in
  match measured with
  | Some measured =>
      let abweichung := abweichung measured expected_px in
      let status :=
        if PrimFloat.leb (PrimFloat.abs abweichung) 1%float
        then CHECK else CROSS in
      (d', {| Komponente := name;
              Beschreibung := description;
              CSS_Selektor := selector;
              Skalierung := label;
              Gemessene_Groesse := format_1f false measured;
              Erwartet := expected_px;
              Status := status;
              Abweichung := format_1f true abweichung |})
  | None =>
      let measured_str := status in
      (d', {| Komponente := name;
              Beschreibung := description;
              CSS_Selektor := selector;
              Skalierung := label;
              Gemessene_Groesse := measured_str;
              Erwartet := expected_px;
              Status := CROSS;
              Abweichung := error_or_na error |})
  end.

(** The inner loop, appending to [results]. *)
Fixpoint measure_components (label : string) (expected_px : Z)
    (selectors : list comp) (d : driver) (results : list row)
    : driver * list row :=
  match selectors with
  | [] => (d, results)
  | c :: rest =>
      let (d', r) := measure_component label expected_px d c in
      measure_components label expected_px rest d' (results ++ [r])%list
  end.

(** The outer loop over the presets. *)
Fixpoint measure_scales (scales : list (string * float * Z))
    (selectors : list comp) (d : driver) (results : list row)
    : driver * list row :=
  match scales with
  | [] => (d, results)
  | (label, scale, expected_px) :: rest =>
      let (d1, _) := set_font_scale d scale in
      let (d2, results') :=
        measure_components label expected_px selectors d1 results in
      measure_scales rest selectors d2 results'
  end.

(** *** Reports *)

Definition md_line (r : row) : string :=
  "| " ++ str_cell (Komponente r) ++ " "
  ++ "| " ++ str_cell (Beschreibung r) ++ " "
  ++ "| `" ++ str_cell (CSS_Selektor r) ++ "` "
  ++ "| " ++ Skalierung r ++ " "
  ++ "| " ++ Gemessene_Groesse r ++ " "
  ++ "| " ++ str_int (Erwartet r) ++ " "
  ++ "| " ++ Status r ++ " "
  ++ "| " ++ Abweichung r ++ " |" ++ nl.

(** [sum(1 for r in results if r['Status'] == CHECK)] *)
Fixpoint passed_count (results : list row) : Z :=
  match results with
  | [] => 0%Z
  | r :: rest =>
      ((if String.eqb (Status r) CHECK then 1 else 0) + passed_count rest)%Z
  end.

Definition total_count (results : list row) : Z :=
  Z.of_nat (List.length results).

Definition failed_count (results : list row) : Z :=
  (total_count results - passed_count results)%Z.

(** What is written before the table rows. *)
Definition md_preamble (a : args) (h : host) : list string :=
  [ "# Font Size Measurement Report" ++ nl ++ nl;
    "**Datum:** " ++ strftime h ++ nl ++ nl;
    "**URL:** " ++ url a ++ nl ++ nl;
    "## Ergebnisse" ++ nl ++ nl;
    "| Komponente | Beschreibung | CSS-Selektor | Skalierung | Gemessen (px) | Erwartet (px) | Status | Abweichung |" ++ nl;
    "|------------|--------------|--------------|------------|---------------|---------------|--------|------------|" ++ nl ].

Definition md_summary_head (results : list row) : list string :=
  [ nl ++ "## Zusammenfassung" ++ nl ++ nl;
    "- **Gesamt:** " ++ str_int (total_count results) ++ " Messungen" ++ nl ].

Definition md_share (title : string) (n : Z) (percent : float) : string :=
  "- **" ++ title ++ ":** " ++ str_int n
  ++ " (" ++ format_1f false percent ++ "%)" ++ nl.

(** The [with open(args.output, 'w')] block: the strings handed to
    [f.write], in order, and how the block ends. An f-string is evaluated
    before its [write], so a division that raises writes nothing. *)
Definition write_markdown (a : args) (h : host) (results : list row)
    : option (list string) * result unit :=
  if writable h (output a) then
    let written :=
      (md_preamble a h ++ map md_line results ++ md_summary_head results)%list in
    let total := total_count results in
    let passed := passed_count results in
    let failed := (total - passed)%Z in
    match true_div (100 * passed) total with
    | Raised e => (Some written, Raised e)
    | Returned p =>
        let written := (written ++ [md_share "Bestanden" passed p])%list in
        match true_div (100 * failed) total with
        | Raised e => (Some written, Raised e)
        | Returned q =>
            (Some (written ++ [md_share "Fehlgeschlagen" failed q])%list,
             Returned tt)
        end
    end
  else (None, Raised (OSError (output a))).

Definition CSV_HEADER : list string :=
  [ "Komponente"; "Beschreibung"; "CSS-Selektor"; "Skalierung";
    "Gemessene Größe (px)"; "Erwartet (px)"; "Status"; "Abweichung" ].

(** The fields of one [writer.writerow], as the writer puts them down: the
    empty string for [None], [str] of the int. *)
Definition csv_record (r : row) : list string :=
  [ csv_cell (Komponente r);
    csv_cell (Beschreibung r);
    csv_cell (CSS_Selektor r);
    Skalierung r;
    Gemessene_Groesse r;
    str_int (Erwartet r);
    Status r;
    Abweichung r ].

(** The reading of a Markdown table line the comparison of the two reports
    rests on: eight cells in column order between pipes, the third one as
    inline code. It is stated from the report format, not taken from
    [md_line]; the two are compared below. *)
Definition md_line_of_fields (fields : list string) : option string :=
  match fields with
  | [c1; c2; c3; c4; c5; c6; c7; c8] =>
      Some ("| " ++ c1 ++ " | " ++ c2 ++ " | `" ++ c3 ++ "` | " ++ c4
            ++ " | " ++ c5 ++ " | " ++ c6 ++ " | " ++ c7 ++ " | " ++ c8
            ++ " |" ++ nl)
  | _ => None
  end.

(** The [with open(args.csv, 'w')] block: the records written. *)
Definition write_csv (a : args) (h : host) (results : list row)
    : option (list (list string)) * result unit :=
  if writable h (csv a)
  then (Some (CSV_HEADER :: map csv_record results), Returned tt)
  else (None, Raised (OSError (csv a))).

(** *** main *)

(** [driver.get], retried once when it raises, then the wait for [body]. *)
Definition load_page (d : driver) (url : string) : driver * result unit :=
  let (d1, r1) := driver_get d url in
  let (d2, r2) :=
    match r1 with
    | Returned _ => (d1, r1)
    | Raised _ => driver_get d1 url
    end in
  match r2 with
  | Raised e => (d2, Raised e)
  | Returned _ => wait_body d2
  end.

(** What a run leaves behind. [commands] are those [main] sends to the
    session it got from [init_driver]. *)
Record outcome : Type := {
  commands : list command;                 (* sent to the browser, latest first *)
  markdown : option (list string);         (* [None]: never opened *)
  csv_file : option (list (list string));
  abandoned : option browser;              (* a session created and never quit *)
  exit : result unit
}.

(** The body of the [try] block of [main] on a selector list whose entries
    all have both keys. *)
Definition session (a : args) (h : host) (selectors : list comp) (d : driver)
    : driver * outcome :=
  let (d1, loaded) := load_page d (url a) in
  match loaded with
  | Raised e =>
      (d1, {| commands := sent d1; markdown := None; csv_file := None;
              abandoned := None; exit := Raised e |})
  | Returned _ =>
      let (d2, results) := measure_scales FONT_SCALES selectors d1 [] in
      let (md, wrote) := write_markdown a h results in
      match wrote with
      | Raised e =>
          (d2, {| commands := sent d2; markdown := md; csv_file := None;
                  abandoned := None; exit := Raised e |})
      | Returned _ =>
          let (cs, wrote') := write_csv a h results in
          (d2, {| commands := sent d2; markdown := md; csv_file := cs;
                  abandoned := None; exit := wrote' |})
      end
  end.

(** What indexing the broken entry raises. *)
Definition raised_by (bad : breakage) : exn :=
  match bad with
  | MissingKey key => KeyError key
  | NotAnObject => TypeError
  end.

(** The [for comp in selectors] loop on whatever [json.load] returned: the
    entries with both keys are measured in turn; the first entry without
    them raises before anything is asked about it; and a value that cannot
    be iterated raises at once. *)
Definition measure_entries (label : string) (expected_px : Z)
    (doc : document) (d : driver) (results : list row)
    : driver * result (list row) :=
  match doc with
  | Regular selectors =>
      let (d', results') :=
        measure_components label expected_px selectors d results in
      (d', Returned results')
  | Irregular good bad _ =>
      let (d', _) := measure_components label expected_px good d results in
      (d', Raised (raised_by bad))
  | Scalar => (d, Raised TypeError)
  end.

(** The outer loop over the presets on such a value. *)
Fixpoint measure_presets (scales : list (string * float * Z))
    (doc : document) (d : driver) (results : list row)
    : driver * result (list row) :=
  match scales with
  | [] => (d, Returned results)
  | (label, scale, expected_px) :: rest =>
      let (d1, _) := set_font_scale d scale in
      let (d2, measured) := measure_entries label expected_px doc d1 results in
      match measured with
      | Returned results' => measure_presets rest doc d2 results'
      | Raised e => (d2, Raised e)
      end
  end.

(** The body of the [try] block of [main]. *)
Definition try_block (a : args) (h : host) (doc : document) (d : driver)
    : driver * outcome :=
  let (d1, loaded) := load_page d (url a) in
  match loaded with
  | Raised e =>
      (d1, {| commands := sent d1; markdown := None; csv_file := None;
              abandoned := None; exit := Raised e |})
  | Returned _ =>
      let (d2, measured) := measure_presets FONT_SCALES doc d1 [] in
      match measured with
      | Raised e =>
          (d2, {| commands := sent d2; markdown := None; csv_file := None;
                  abandoned := None; exit := Raised e |})
      | Returned results =>
          let (md, wrote) := write_markdown a h results in
          match wrote with
          | Raised e =>
              (d2, {| commands := sent d2; markdown := md; csv_file := None;
                      abandoned := None; exit := Raised e |})
          | Returned _ =>
              let (cs, wrote') := write_csv a h results in
              (d2, {| commands := sent d2; markdown := md; csv_file := cs;
                      abandoned := None; exit := wrote' |})
          end
      end
  end.

Definition main (a : args) (h : host) : outcome :=
  match load_selectors h (config a) with
  | Raised e =>
      {| commands := []; markdown := None; csv_file := None;
         abandoned := None; exit := Raised e |}
  | Returned selectors =>
      match len selectors with
      | Raised e =>
          {| commands := []; markdown := None; csv_file := None;
             abandoned := None; exit := Raised e |}
      | Returned _ =>
          let (left, started) := init_driver h (negb (no_headless a)) in
          match started with
          | Raised e =>
              {| commands := []; markdown := None; csv_file := None;
                 abandoned := left; exit := Raised e |}
          | Returned driver =>
              let (d, o) := try_block a h selectors driver in
              (* finally: driver.quit() *)
              let (d', quit) := driver_quit d in
              {| commands := sent d';
                 markdown := markdown o;
                 csv_file := csv_file o;
                 abandoned := None;
                 exit := match quit with
                         | Raised e => Raised e
                         | Returned _ => exit o
                         end |}
          end
      end
  end.

(** *** Notions the statements use *)

(** The (preset, component) pair a row was recorded for. *)
Definition pair_of (r : row) : string * cell * cell :=
  (Skalierung r, Komponente r, CSS_Selektor r).

(** Every (preset, component) pair, presets outermost, in loop order. *)
Definition pairs (scales : list (string * float * Z)) (selectors : list comp)
    : list (string * cell * cell) :=
  flat_map (fun s => map (fun c => (fst (fst s), name c, selector c)) selectors)
           scales.

(** The eight values of a row in column order, before either report
    renders them. *)
Definition values (r : row) : list cell :=
  [ Komponente r;
    Beschreibung r;
    CSS_Selektor r;
    Text (Skalierung r);
    Text (Gemessene_Groesse r);
    Text (str_int (Erwartet r));
    Text (Status r);
    Text (Abweichung r) ].

(** The summary of a report that was written to its end, with the two
    percentages [p] and [q]. *)
Definition md_summary (results : list row) (p q : float) : list string :=
  (md_summary_head results
   ++ [ md_share "Bestanden" (passed_count results) p;
        md_share "Fehlgeschlagen" (failed_count results) q ])%list.

(** [d'] is [d] some commands later, none of them [Quit]. *)
Definition extends (d d' : driver) : Prop :=
  remote d' = remote d /\
  exists new, sent d' = (new ++ sent d)%list /\ ~ In Quit new.

(** A row as [measure_component] records it for [c] under a preset. *)
Definition recorded (label : string) (expected_px : Z) (c : comp) (r : row)
    : Prop :=
  exists d, r = snd (measure_component label expected_px d c).

(** A row produced under one of the presets for one of the components. *)
Definition from_loop (scales : list (string * float * Z))
    (selectors : list comp) (r : row) : Prop :=
  exists label scale e c,
    In (label, scale, e) scales /\ In c selectors /\ recorded label e c r.




End MeasureFontSizes.

(* ================================================================= *)
(** ** Sample machines and pages, for running the model *)

Module Scenario.
Import Py MeasureFontSizes.

(** A page on which [#missing] never shows up, [.gone] vanishes between the
    wait and the lookup, [.fine] renders at 13.00390625px, [.coarse] at
    13.3125px, and everything else at 14px. *)
Definition page_probe (history : list command) : attempt :=
  match history with
  | Probe PyNone :: _ =>
      Threw (OtherException "invalid argument: 'value' must be a string")
  | Probe (Text sel) :: _ =>
      if String.eqb sel "#missing" then Threw TimeoutException
      else if String.eqb sel ".gone" then Threw NoSuchElementException
      else if String.eqb sel ".fine" then Got 13.00390625%float
      else if String.eqb sel ".coarse" then Got 13.3125%float
      else Got 14%float
  | _ => Got 14%float
  end.

Definition steady : browser :=
  {| on_get := fun _ => None;
     on_wait_body := fun _ => None;
     on_set_scale := fun _ => None;
     on_probe := page_probe;
     on_quit := fun _ => None |}.


Definition two_components : list comp :=
  [ {| name := "Toolbar"; selector := ".toolbar";
       description := Some (Text "Main toolbar") |};
    {| name := "Ghost"; selector := "#missing"; description := None |} ].

Definition machine (b : browser) (selectors : list comp) : host :=
  {| read_config := fun _ => Parsed selectors;
     launch := fun _ => Ready b;
     writable := fun _ => true;
     strftime := "2025-01-01 12:00:00" |}.

Definition defaults : args :=
  {| url := "http://localhost:5173";
     config := "font_selectors.json";
     output := "font_report.md";
     csv := "font_report.csv";
     no_headless := false |}.

(** A machine without the directory the stub saves its evidence to, and
    one that has it. *)
Definition elsewhere : VerifyTypography.host :=
  {| VerifyTypography.writable := fun _ => false;
     VerifyTypography.strftime := "2025-01-01 12:00:00" |}.

Definition at_home : VerifyTypography.host :=
  {| VerifyTypography.writable := fun _ => true;
     VerifyTypography.strftime := "2025-01-01 12:00:00" |}.

(** A fresh session on a browser, as [init_driver] returns it. *)
Definition fresh (b : browser) : driver := {| remote := b; sent := [] |}.

Definition ghost : comp :=
  {| name := "Ghost"; selector := "#missing"; description := None |}.

Definition fine : comp :=
  {| name := "Fine print"; selector := ".fine"; description := None |}.

Definition coarse : comp :=
  {| name := "Coarse"; selector := ".coarse"; description := None |}.

(** A component whose description is a JSON null. *)
Definition undescribed : comp :=
  {| name := "Toolbar"; selector := ".toolbar"; description := Some PyNone |}.


Definition gone : comp :=
  {| name := "Gone"; selector := ".gone"; description := None |}.

(** A machine whose config has, after one good entry, an object without
    a selector; and one on which Chrome starts but refuses the page-load
    timeout. *)
Definition ragged : host :=
  {| read_config := fun _ => Ragged [ghost] (MissingKey "selector") 0;
     launch := fun _ => Ready steady;
     writable := fun _ => true;
     strftime := "2025-01-01 12:00:00" |}.


(** A machine without the configuration file, and one without Chrome. *)
Definition unconfigured : host :=
  {| read_config := fun _ => Missing;
     launch := fun _ => Ready steady;
     writable := fun _ => true;
     strftime := "2025-01-01 12:00:00" |}.

Definition driverless : host :=
  {| read_config := fun _ => Parsed two_components;
     launch := fun _ => NoChrome;
     writable := fun _ => true;
     strftime := "2025-01-01 12:00:00" |}.

(** A test table with an entry whose token the scale does not have. *)
Definition heading_case : VerifyTypography.test_case :=
  {| VerifyTypography.component := "Heading";
     VerifyTypography.selector := "h1";
     VerifyTypography.expected := "text-ui-4xl" |}.

Definition label_case : VerifyTypography.test_case :=
  {| VerifyTypography.component := "Label";
     VerifyTypography.selector := "label";
     VerifyTypography.expected := "text-ui-sm" |}.

End Scenario.

(* ================================================================= *)
(** * Properties *)

(** ** Strings and dicts *)

Module PyFacts.
Import Py.

Lemma prefix_iff (a b : string) :
  prefix a b = true <-> exists post, b = a ++ post.
Proof.
  revert b; induction a as [|c a IH]; intros b; simpl.
  - split; [intros _; now exists b | now destruct b].
  - destruct b as [|c' b]; simpl.
    + split; [discriminate | intros [post H]; discriminate H].
    + destruct (ascii_dec c c') as [->|Hne].
      * rewrite IH. split; intros [post H]; exists post.
        -- now rewrite H.
        -- now injection H.
      * split; [discriminate | intros [post H]; injection H; congruence].
Qed.

(** [needle in hay] holds exactly when [hay] splits around [needle]. *)
Lemma contains_iff (needle hay : string) :
  contains needle hay = true <-> exists pre post, hay = pre ++ needle ++ post.
Proof.
  induction hay as [|c hay IH]; cbn [contains].
  - rewrite orb_false_r, prefix_iff. split.
    + intros [post H]. now exists "", post.
    + intros [pre [post H]]. destruct pre as [|? ?]; [|discriminate H].
      now exists post.
  - rewrite orb_true_iff, prefix_iff, IH. split.
    + intros [[post H] | [pre [post H]]].
      * now exists "", post.
      * exists (String c pre), post. simpl. now rewrite H.
    + intros [pre [post H]]. destruct pre as [|c' pre]; simpl in H.
      * left. now exists post.
      * right. injection H as _ H. now exists pre, post.
Qed.

(** Looking up the key of an item none of whose predecessors has it. *)
Lemma dict_get_middle (before after : list (string * string))
    (k v default : string) :
  ~ In k (keys before) ->
  dict_get (before ++ (k, v) :: after) k default = v.
Proof.
  induction before as [|[k' v'] before IH]; simpl; intros Hnot.
  - now rewrite String.eqb_refl.
  - destruct (String.eqb_spec k' k) as [->|_].
    + exfalso. apply Hnot. now left.
    + apply IH. intros Hin. apply Hnot. now right.
Qed.

(** [round(x, 2)] and the one-decimal formats on a few exact inputs: ties
    go to the even digit, the sign survives a rounding to zero. *)
Example round2_ties_to_even :
  PrimFloat.eqb (round2 0.125%float) (PrimFloat.div 12%float 100%float) = true /\
  PrimFloat.eqb (round2 0.375%float) (PrimFloat.div 38%float 100%float) = true /\
  PrimFloat.eqb (round2 1.3125%float) (PrimFloat.div 131%float 100%float) = true /\
  round2 14%float = 14%float /\
  round2 (-0.001953125)%float = neg_zero.
Proof. repeat split; vm_compute; reflexivity. Qed.

Example format_1f_samples :
  format_1f false 14%float = "14.0" /\
  format_1f false 0.25%float = "0.2" /\
  format_1f false 0.75%float = "0.8" /\
  format_1f true 2%float = "+2.0" /\
  format_1f true (-6)%float = "-6.0" /\
  format_1f true (-0.03125)%float = "-0.0" /\
  format_1f true nan = "+nan".
Proof. repeat split; vm_compute; reflexivity. Qed.

Example true_div_samples :
  true_div 100 10 = Returned 10%float /\
  true_div 0 0 = Raised ZeroDivisionError.
Proof. split; vm_compute; reflexivity. Qed.

Lemma dict_get_miss (d : list (string * string)) (k default : string) :
  ~ In k (keys d) -> dict_get d k default = default.
Proof.
  induction d as [|[k' v] d IH]; simpl; intros Hnot; [reflexivity|].
  destruct (String.eqb_spec k' k) as [->|_]; [tauto | apply IH; tauto].
Qed.

Lemma dict_get_hit (d : list (string * string)) (k default : string) :
  In k (keys d) -> In (k, dict_get d k default) d.
Proof.
  induction d as [|[k' v] d IH]; simpl; intros Hin; [destruct Hin|].
  destruct (String.eqb_spec k' k) as [->|Hne]; [now left|].
  right. apply IH. destruct Hin; [congruence | assumption].
Qed.

Lemma dict_index_miss (d : list (string * string)) (k : string) :
  ~ In k (keys d) -> dict_index d k = Raised (KeyError k).
Proof.
  induction d as [|[k' v] d IH]; simpl; intros Hnot; [reflexivity|].
  destruct (String.eqb_spec k' k) as [->|_]; [tauto | apply IH; tauto].
Qed.

Lemma dict_index_hit (d : list (string * string)) (k : string) :
  In k (keys d) -> exists v, dict_index d k = Returned v /\ In (k, v) d.
Proof.
  induction d as [|[k' v] d IH]; simpl; intros Hin; [destruct Hin|].
  destruct (String.eqb_spec k' k) as [->|Hne].
  - exists v. auto.
  - destruct IH as [v' [Hv Hin']]; [destruct Hin; [congruence | assumption]|].
    exists v'. auto.
Qed.

Lemma append_empty_r (s : string) : s ++ "" = s.
Proof. induction s as [|c s IH]; simpl; [reflexivity | now rewrite IH]. Qed.

Lemma append_assoc3 (a b c : string) : (a ++ b) ++ c = a ++ b ++ c.
Proof. induction a as [|x a IH]; simpl; [reflexivity | now rewrite IH]. Qed.

Lemma contains_refl (s : string) : contains s s = true.
Proof.
  apply contains_iff. exists "", "". simpl. now rewrite append_empty_r.
Qed.

Lemma contains_trans (a b c : string) :
  contains a b = true -> contains b c = true -> contains a c = true.
Proof.
  rewrite !contains_iff. intros [p1 [q1 ->]] [p2 [q2 ->]].
  exists (p2 ++ p1), (q1 ++ q2). now rewrite !append_assoc3.
Qed.

End PyFacts.

(** ** Button-size scraper *)

Module ButtonSizesSpec.
Import Py PyFacts ButtonSizes.

(** The token loop finds a key exactly when that key occurs and no earlier
    key does. *)
Lemma first_token_Some (tokens : list string) (cls_text t : string) :
  first_token tokens cls_text = Some t <->
  exists before after,
    tokens = (before ++ t :: after)%list /\
    contains t cls_text = true /\
    (forall t', In t' before -> contains t' cls_text = false).
Proof.
  induction tokens as [|tok rest IH]; simpl.
  - split; [discriminate|]. intros [before [after [H _]]].
    now destruct before.
  - destruct (contains tok cls_text) eqn:Htok.
    + split.
      * intros [= <-]. exists [], rest. repeat split; auto.
        intros t' [].
      * intros [before [after [Heq [Ht Hbefore]]]].
        destruct before as [|b before]; simpl in Heq.
        -- now injection Heq as -> _.
        -- injection Heq as -> _.
           rewrite (Hbefore b (or_introl eq_refl)) in Htok. discriminate.
    + rewrite IH. split.
      * intros [before [after [Heq [Ht Hbefore]]]].
        exists (tok :: before), after. subst rest. repeat split; auto.
        intros t' [<-|Hin]; auto.
      * intros [before [after [Heq [Ht Hbefore]]]].
        destruct before as [|b before]; simpl in Heq.
        -- injection Heq as -> _. congruence.
        -- injection Heq as -> ->. exists before, after.
           repeat split; auto. intros t' Hin. apply Hbefore. now right.
Qed.

Lemma first_token_None (tokens : list string) (cls_text : string) :
  first_token tokens cls_text = None <->
  (forall t, In t tokens -> contains t cls_text = false).
Proof.
  induction tokens as [|tok rest IH]; simpl.
  - split; [intros _ t [] | reflexivity].
  - destruct (contains tok cls_text) eqn:Htok.
    + split; [discriminate|]. intros H.
      rewrite (H tok (or_introl eq_refl)) in Htok. discriminate.
    + rewrite IH. split.
      * intros H t [<-|Hin]; auto.
      * intros H t Hin. apply H. now right.
Qed.

Lemma keys_truthy (t : string) : In t (keys TW_H_MAP) -> truthy t = true.
Proof.
  simpl. intros H.
  repeat (destruct H as [<-|H]; [reflexivity|]). destruct H.
Qed.

Lemma keys_app (a b : list (string * string)) :
  keys (a ++ b) = (keys a ++ keys b)%list.
Proof. apply map_app. Qed.

(** C3 as stated fails twice over: a class string that holds the token
    [h-9] next to the height variable gets the variable's height, and one
    that holds [h-9] before [h-4] gets the height of [h-4]; in neither case
    the 36px of [h-9]. *)
Lemma height_of_contained_token_counterexample :
  In ("h-9", "36px") TW_H_MAP /\
  (contains "h-9" "h-9 h-[var(--ui-button-height)]" = true /\
   height_px "h-9 h-[var(--ui-button-height)]" = HEIGHT_VAR_PX /\
   HEIGHT_VAR_PX <> "36px") /\
  (contains "h-9" "h-9 h-4" = true /\
   height_px "h-9 h-4" = "16px" /\
   "16px" <> "36px").
Proof.
  split; [simpl; tauto|].
  split; (split; [reflexivity | split; [reflexivity | discriminate]]).
Qed.

(** C3, amended: when the class string does not hold the height variable,
    the derived height is the pixel value of the first table key, in table
    order, that occurs in it; and when no table key occurs in it either, the
    derived height is the fallback placeholder. *)
Theorem height_px_first_token_or_default (cls_text : string) :
  h_var cls_text = false ->
  (forall before token px after,
      TW_H_MAP = (before ++ (token, px) :: after)%list ->
      contains token cls_text = true ->
      (forall t, In t (keys before) -> contains t cls_text = false) ->
      height_px cls_text = px) /\
  ((forall token, In token (keys TW_H_MAP) -> contains token cls_text = false) ->
   height_px cls_text = HEIGHT_DEFAULT).
Proof.
  intros Hvar. unfold height_px. rewrite Hvar. split.
  - intros before token px after Hmap Htoken Hbefore.
    assert (Hfirst : h_token cls_text = Some token).
    { unfold h_token. apply first_token_Some.
      exists (keys before), (keys after). rewrite Hmap, keys_app.
      now repeat split. }
    rewrite Hfirst.
    assert (Hin : In token (keys TW_H_MAP)).
    { rewrite Hmap, keys_app. apply in_or_app. right. now left. }
    rewrite (keys_truthy _ Hin), Hmap.
    apply dict_get_middle. intros Hk.
    rewrite (Hbefore _ Hk) in Htoken. discriminate.
  - intros Hnone. unfold h_token.
    now rewrite (proj2 (first_token_None _ _) Hnone).
Qed.

Lemma height_px_first_token_or_default_witness :
  h_var "rounded h-10 px-2" = false /\
  height_px "rounded h-10 px-2" = "40px".
Proof.
  split; [reflexivity|].
  apply (proj1 (height_px_first_token_or_default "rounded h-10 px-2" eq_refl)
           (firstn 6 TW_H_MAP) "h-10" "40px" (skipn 7 TW_H_MAP)).
  - reflexivity.
  - reflexivity.
  - simpl. intros t H.
    repeat (destruct H as [<-|H]; [reflexivity|]). destruct H.
Defined.

(** C10: the token is recognised by substring containment, the first table
    key in dict order that occurs wins; so [h-40], whose only class is not a
    table key, still gets the 16px of [h-4], and of [h-9] and [h-4] the
    earlier entry [h-4] is chosen wherever it stands in the class string. *)
Theorem h_token_first_substring_match :
  (forall cls_text t,
      h_token cls_text = Some t <->
      exists before after,
        keys TW_H_MAP = (before ++ t :: after)%list /\
        (exists pre post, cls_text = pre ++ t ++ post) /\
        (forall t', In t' before ->
                    ~ exists pre post, cls_text = pre ++ t' ++ post)) /\
  (classes "h-40" = ["h-40"] /\ ~ In "h-40" (keys TW_H_MAP) /\
   h_token "h-40" = Some "h-4" /\ height_px "h-40" = "16px") /\
  (h_token "h-9 h-4" = Some "h-4" /\ height_px "h-9 h-4" = "16px" /\
   h_token "h-4 h-9" = Some "h-4" /\ height_px "h-4 h-9" = "16px").
Proof.
  split; [|split].
  - intros cls_text t. unfold h_token. rewrite first_token_Some.
    split; intros [before [after [Hk [Ht Hb]]]]; exists before, after;
      (split; [exact Hk|]); split.
    + now apply contains_iff.
    + intros t' Hin Hex. apply contains_iff in Hex.
      rewrite (Hb t' Hin) in Hex. discriminate.
    + now apply contains_iff.
    + intros t' Hin. destruct (contains t' cls_text) eqn:E; [|reflexivity].
      exfalso. apply (Hb t' Hin). now apply contains_iff.
  - repeat split; try reflexivity.
    simpl. intros H.
    repeat (destruct H as [H|H]; [discriminate H|]). destruct H.
  - repeat split; reflexivity.
Qed.

(** *** More on heights *)

(** X15: the derived height is always the variable's string, the placeholder,
    or one of the eight pixel values of the table; the 'unknown' default of
    the table lookup is never the result. *)
Theorem height_px_is_never_unknown (cls_text : string) :
  (height_px cls_text = HEIGHT_VAR_PX \/
   height_px cls_text = HEIGHT_DEFAULT \/
   exists token, In (token, height_px cls_text) TW_H_MAP /\
                 contains token cls_text = true) /\
  height_px cls_text <> "unknown".
Proof.
  assert (Hcases : height_px cls_text = HEIGHT_VAR_PX \/
                   height_px cls_text = HEIGHT_DEFAULT \/
                   exists token, In (token, height_px cls_text) TW_H_MAP /\
                                 contains token cls_text = true).
  { unfold height_px. destruct (h_var cls_text); [now left|]. right.
    destruct (h_token cls_text) as [t|] eqn:Ht; [|now left].
    apply first_token_Some in Ht.
    destruct Ht as [before [after [Hkeys [Hocc _]]]].
    assert (Hin : In t (keys TW_H_MAP)).
    { rewrite Hkeys. apply in_or_app. right. now left. }
    rewrite (keys_truthy t Hin). right. exists t.
    split; [now apply dict_get_hit | exact Hocc]. }
  split; [exact Hcases|].
  destruct Hcases as [H|[H|[token [H _]]]]; rewrite ?H; try discriminate.
  intros Heq. rewrite Heq in H. simpl in H.
  repeat (destruct H as [H|H]; [discriminate H|]). destruct H.
Qed.

(** *** Width *)

Lemma size_icon_holds_icon (chunk : string) :
  contains ("size=" ++ dq ++ "icon" ++ dq) chunk = true ->
  contains "icon" chunk = true.
Proof.
  apply contains_trans. apply contains_iff.
  exists ("size=" ++ dq), dq. reflexivity.
Qed.

(** X16: the width cascade comes down to this: a match that is the width
    variable gives the variable's string, any other match is passed on as
    it is (the digit test decides nothing), and without a match the width
    is the icon square exactly when the chunk holds the word icon (the
    second test, for the size attribute, adds nothing). *)
Theorem width_px_in_three_cases (isdigit : string -> bool)
    (w_match : option string) (chunk : string) :
  width_px isdigit w_match chunk =
    match w_match with
    | Some w => if String.eqb w W_VAR then HEIGHT_VAR_PX else w
    | None => if contains "icon" chunk then WIDTH_ICON else WIDTH_AUTO
    end.
Proof.
  unfold width_px. destruct w_match as [w|].
  - destruct (String.eqb w W_VAR); [reflexivity|].
    now destruct (prefix "w-" w && isdigit _).
  - destruct (contains "icon" chunk) eqn:Hicon; [reflexivity|].
    destruct (contains ("size=" ++ dq ++ "icon" ++ dq) chunk) eqn:Hsize;
      [|reflexivity].
    apply size_icon_holds_icon in Hsize. congruence.
Qed.

(** *** Substrings and whole classes *)

Lemma classes_cons (s : string) : exists w ws, classes s = w :: ws.
Proof.
  induction s as [|c s [w [ws IH]]]; simpl; [eauto|].
  destruct (Ascii.eqb c " "); [eauto|]. rewrite IH. eauto.
Qed.

Lemma prefix_empty_r (t : string) : prefix t "" = true -> t = "".
Proof. now destruct t. Qed.

Lemma prefix_cons (a c : ascii) (t s : string) :
  prefix (String a t) (String c s) = true <-> a = c /\ prefix t s = true.
Proof.
  simpl. destruct (ascii_dec a c) as [->|Hne].
  - tauto.
  - split; [discriminate | intros [H _]; contradiction].
Qed.

Lemma space_free_cons (a : ascii) (t : string) :
  contains " " (String a t) = false ->
  Ascii.eqb a " " = false /\ contains " " t = false.
Proof.
  cbn [contains]. intros H. apply orb_false_elim in H. destruct H as [Hp Hc].
  split; [|exact Hc].
  destruct (Ascii.eqb_spec a " ") as [->|]; [|reflexivity].
  assert (Hyes : prefix " " (String " " t) = true).
  { apply prefix_cons. split; [reflexivity | now destruct t]. }
  congruence.
Qed.

(** A prefix without a space lies inside the first class. *)
Lemma prefix_first_class (s : string) :
  forall t w ws,
    contains " " t = false -> classes s = w :: ws ->
    prefix t s = true -> prefix t w = true.
Proof.
  induction s as [|c rest IH]; intros t w ws Hfree Hcls Hpre.
  - apply prefix_empty_r in Hpre. subst t. now destruct w.
  - destruct t as [|a t]; [now destruct w|].
    apply prefix_cons in Hpre. destruct Hpre as [-> Hpre].
    apply space_free_cons in Hfree. destruct Hfree as [Hc Hfree].
    cbn [classes] in Hcls. rewrite Hc in Hcls.
    destruct (classes_cons rest) as [w0 [ws0 Hrest]]. rewrite Hrest in Hcls.
    injection Hcls as <- <-. apply prefix_cons. split; [reflexivity|].
    now apply (IH t w0 ws0).
Qed.

Lemma first_class_is_prefix (s : string) :
  forall w ws, classes s = w :: ws -> prefix w s = true.
Proof.
  induction s as [|c rest IH]; intros w ws Hcls; cbn [classes] in Hcls.
  - now injection Hcls as <- _.
  - destruct (Ascii.eqb c " ").
    + now injection Hcls as <- _.
    + destruct (classes_cons rest) as [w0 [ws0 Hrest]]. rewrite Hrest in Hcls.
      injection Hcls as <- _. apply prefix_cons. split; [reflexivity|].
      now apply (IH w0 ws0).
Qed.

Lemma prefix_trans (a b c : string) :
  prefix a b = true -> prefix b c = true -> prefix a c = true.
Proof.
  rewrite !prefix_iff. intros [p ->] [q ->]. exists (p ++ q).
  now rewrite append_assoc3.
Qed.

Lemma contains_empty_hay (t : string) : t <> "" -> contains t "" = false.
Proof. destruct t; [congruence | reflexivity]. Qed.

(** A token without a space occurs in a class string exactly when it
    occurs in one of its classes. *)
Lemma contains_in_a_class (t s : string) :
  t <> "" -> contains " " t = false ->
  (contains t s = true <->
   exists w, In w (classes s) /\ contains t w = true).
Proof.
  intros Hne Hfree. induction s as [|c rest IH].
  - rewrite (contains_empty_hay t Hne). split; [discriminate|].
    intros [w [[<-|[]] Hw]]. now rewrite (contains_empty_hay t Hne) in Hw.
  - destruct (classes_cons rest) as [w0 [ws0 Hrest]].
    cbn [contains classes]. rewrite Hrest.
    destruct (Ascii.eqb c " ") eqn:Hc.
    + assert (Hpre : prefix t (String c rest) = false).
      { destruct t as [|a t]; [congruence|].
        apply space_free_cons in Hfree. destruct Hfree as [Ha _].
        apply Ascii.eqb_eq in Hc. subst c.
        destruct (prefix (String a t) (String " " rest)) eqn:E; [|reflexivity].
        apply prefix_cons in E. destruct E as [-> _].
        rewrite Ascii.eqb_refl in Ha. discriminate Ha. }
      rewrite Hpre, orb_false_l, IH, Hrest. split.
      * intros [w [Hin Hw]]. exists w. split; [now right | exact Hw].
      * intros [w [[<-|Hin] Hw]].
        -- now rewrite (contains_empty_hay t Hne) in Hw.
        -- now exists w.
    + rewrite orb_true_iff, IH, Hrest. split.
      * intros [Hpre | [w [[<-|Hin] Hw]]].
        -- exists (String c w0). split; [now left|].
           cbn [contains]. apply orb_true_iff. left.
           apply (prefix_first_class (String c rest) t (String c w0) ws0);
             auto.
           cbn [classes]. now rewrite Hc, Hrest.
        -- exists (String c w0). split; [now left|].
           cbn [contains]. now rewrite Hw, orb_true_r.
        -- exists w. split; [now right | exact Hw].
      * intros [w [[<-|Hin] Hw]].
        -- cbn [contains] in Hw. apply orb_true_iff in Hw.
           destruct Hw as [Hpre|Hw].
           ++ left. apply prefix_trans with (String c w0); [exact Hpre|].
              apply (first_class_is_prefix (String c rest) _ ws0).
              cbn [classes]. now rewrite Hc, Hrest.
           ++ right. exists w0. split; [now left | exact Hw].
        -- right. exists w. split; [now right | exact Hw].
Qed.

Lemma keys_space_free (k : string) :
  In k (keys TW_H_MAP) -> k <> "" /\ contains " " k = false.
Proof.
  simpl. intros H.
  repeat (destruct H as [<-|H]; [split; [discriminate | reflexivity]|]).
  destruct H.
Qed.

Lemma first_token_first_class (tokens : list string) (cls_text : string) :
  (forall k, In k tokens ->
             contains k cls_text = existsb (String.eqb k) (classes cls_text)) ->
  first_token tokens cls_text = first_class tokens (classes cls_text).
Proof.
  induction tokens as [|t rest IH]; intros Hsame; [reflexivity|].
  cbn [first_token first_class]. rewrite (Hsame t (or_introl eq_refl)).
  destruct (existsb (String.eqb t) (classes cls_text)); [reflexivity|].
  apply IH. intros k Hk. apply Hsame. now right.
Qed.

Lemma h_token_exact (cls_text : string) :
  keys_only_as_classes cls_text = true ->
  h_token cls_text = exact_token cls_text.
Proof.
  intros Honly.
  unfold h_token, exact_token. apply first_token_first_class.
  intros k Hk. destruct (keys_space_free k Hk) as [Hne Hfree].
  unfold keys_only_as_classes in Honly.
  rewrite forallb_forall in Honly.
  apply eq_true_iff_eq. rewrite (contains_in_a_class k cls_text Hne Hfree).
  rewrite existsb_exists. split.
  - intros [w [Hw Hocc]]. exists w. split; [exact Hw|].
    specialize (Honly w Hw). rewrite forallb_forall in Honly.
    specialize (Honly k Hk). rewrite Hocc in Honly. simpl in Honly.
    apply String.eqb_eq in Honly. subst w. apply String.eqb_refl.
  - intros [w [Hw Heq]]. apply String.eqb_eq in Heq. subst w.
    exists k. split; [exact Hw | apply contains_refl].
Qed.

Lemma height_px_exact (cls_text : string) :
  keys_only_as_classes cls_text = true ->
  h_var cls_text = false ->
  height_px cls_text =
    match exact_token cls_text with
    | Some token => dict_get TW_H_MAP token "unknown"
    | None => HEIGHT_DEFAULT
    end.
Proof.
  intros Honly Hvar. pose proof (h_token_exact cls_text Honly) as Hsame.
  unfold height_px. rewrite Hvar, Hsame.
  destruct (exact_token cls_text) as [t|] eqn:Ht; [|reflexivity].
  assert (Hin : In t (keys TW_H_MAP)).
  { unfold h_token in Hsame. apply first_token_Some in Hsame.
    destruct Hsame as [before [after [Hkeys _]]].
    rewrite Hkeys. apply in_or_app. right. now left. }
  now rewrite (keys_truthy t Hin).
Qed.

(** X17: on a class string in which a table key occurs only as a whole class,
    the substring test finds what a lookup by whole class finds: the token
    is the first table key that is one of the classes, and, the height
    variable apart, the derived height is that key's pixel value, or the
    placeholder when no class is a key. *)
Theorem h_token_agrees_with_whole_classes (cls_text : string) :
  keys_only_as_classes cls_text = true ->
  h_token cls_text = exact_token cls_text /\
  (h_var cls_text = false ->
   height_px cls_text =
     match exact_token cls_text with
     | Some token => dict_get TW_H_MAP token "unknown"
     | None => HEIGHT_DEFAULT
     end).
Proof.
  intros Honly. split.
  - now apply h_token_exact.
  - now apply height_px_exact.
Qed.

Lemma h_token_agrees_with_whole_classes_witness :
  keys_only_as_classes "rounded h-10 px-2" = true /\
  h_token "rounded h-10 px-2" = exact_token "rounded h-10 px-2" /\
  keys_only_as_classes "h-40" = false.
Proof.
  split; [reflexivity|]. split; [|reflexivity].
  apply (h_token_agrees_with_whole_classes "rounded h-10 px-2" eq_refl).
Defined.

(** *** Collapsed class strings *)

Lemma pieces_cons (g : list glyph) : exists w ws, pieces g = w :: ws.
Proof.
  induction g as [|[|b] g [w [ws IH]]]; simpl; eauto.
  rewrite IH. eauto.
Qed.

Lemma rstrip_nil_iff (g : list glyph) :
  rstrip g = [] <-> split_fields g = [].
Proof.
  unfold split_fields. induction g as [|[|b] g IH]; cbn [rstrip pieces].
  - split; reflexivity.
  - cbn [filter truthy]. rewrite <- IH.
    destruct (rstrip g); split; (reflexivity || discriminate).
  - destruct (pieces_cons g) as [w [ws ->]]. cbn [filter truthy].
    split; discriminate.
Qed.

Lemma join_spaces_cons (w : string) (more : list string) :
  join_spaces (w :: more) = w ++ after_first more.
Proof.
  destruct more as [|w' more]; cbn [join_spaces after_first];
    [now rewrite append_empty_r | reflexivity].
Qed.

(** After [rstrip], the substitution started outside a run gives the first
    piece and then the other fields, and started inside a run it gives the
    fields alone. *)
Lemma sub_spaces_rstrip (g : list glyph) :
  sub_spaces false (rstrip g) =
    match pieces g with
    | w :: ws => w ++ after_first (filter truthy ws)
    | [] => ""
    end /\
  sub_spaces true (rstrip g) = join_spaces (split_fields g).
Proof.
  induction g as [|[|b] g [IHf IHt]].
  - split; reflexivity.
  - pose proof (rstrip_nil_iff g) as Hnil.
    unfold split_fields in *. cbn [rstrip pieces filter truthy].
    destruct (rstrip g) as [|k ks] eqn:Hr.
    + rewrite (proj1 Hnil eq_refl). split; reflexivity.
    + change (sub_spaces false (Blank :: k :: ks))
        with (String " " (sub_spaces true (k :: ks))).
      change (sub_spaces true (Blank :: k :: ks))
        with (sub_spaces true (k :: ks)).
      rewrite IHt.
      destruct (filter truthy (pieces g)) as [|f fs] eqn:Hf.
      * destruct Hnil as [_ Hnil]. discriminate (Hnil eq_refl).
      * split; reflexivity.
  - destruct (pieces_cons g) as [w [ws Hp]].
    unfold split_fields in *. cbn [rstrip pieces sub_spaces].
    rewrite Hp in *. cbn [filter truthy]. rewrite IHf.
    split; [reflexivity|]. now rewrite join_spaces_cons.
Qed.

Lemma lstrip_fields (g : list glyph) :
  split_fields (lstrip g) = split_fields g.
Proof.
  unfold split_fields. induction g as [|[|b] g IH]; cbn [lstrip];
    [reflexivity | | reflexivity].
  rewrite IH. reflexivity.
Qed.

Lemma lstrip_head (g : list glyph) :
  lstrip g = [] \/ exists b rest, lstrip g = Byte b :: rest.
Proof.
  induction g as [|[|b] g IH]; cbn [lstrip]; [now left | exact IH | right].
  now exists b, g.
Qed.

Lemma collapse_join (cls_text : string) :
  collapse cls_text = join_spaces (split_fields (glyphs cls_text)).
Proof.
  unfold collapse, strip. rewrite <- lstrip_fields.
  destruct (sub_spaces_rstrip (lstrip (glyphs cls_text))) as [Hf _].
  rewrite Hf.
  destruct (lstrip_head (glyphs cls_text)) as [->|[b [rest ->]]];
    [reflexivity|].
  unfold split_fields. destruct (pieces_cons rest) as [w [ws Hp]].
  cbn [pieces]. rewrite Hp. cbn [filter truthy].
  now rewrite join_spaces_cons.
Qed.

Lemma space_width_of_space (rest : string) :
  space_width (String " " rest) = 1%nat.
Proof. reflexivity. Qed.

Lemma glyphs_from_no_space_byte (s : string) :
  forall skip, Forall (fun x => x <> Byte " ") (glyphs_from s skip).
Proof.
  induction s as [|b rest IH]; intros skip; cbn [glyphs_from]; [constructor|].
  destruct skip as [|k]; [|apply IH].
  destruct (space_width (String b rest)) eqn:Hw.
  - constructor; [|apply IH]. intros [= ->].
    rewrite space_width_of_space in Hw. discriminate Hw.
  - constructor; [discriminate | apply IH].
Qed.

Lemma space_free_intro (b : ascii) (w : string) :
  Ascii.eqb b " " = false -> contains " " w = false ->
  contains " " (String b w) = false.
Proof.
  intros Hb Hw. cbn [contains]. rewrite Hw, orb_false_r.
  destruct (prefix " " (String b w)) eqn:E; [|reflexivity].
  apply prefix_cons in E. destruct E as [<- _].
  rewrite Ascii.eqb_refl in Hb. discriminate Hb.
Qed.

Lemma pieces_space_free (g : list glyph) :
  Forall (fun x => x <> Byte " ") g ->
  Forall (fun w => contains " " w = false) (pieces g).
Proof.
  induction 1 as [|x g Hx _ IH]; cbn [pieces].
  - repeat constructor.
  - destruct x as [|b]; [constructor; [reflexivity | exact IH]|].
    destruct (pieces_cons g) as [w [ws Hp]]. rewrite Hp in *.
    inversion IH as [|? ? Hw Hws]; subst. constructor; [|exact Hws].
    apply space_free_intro; [|exact Hw].
    destruct (Ascii.eqb_spec b " ") as [->|]; [congruence | reflexivity].
Qed.

Lemma classes_space_free (w : string) :
  contains " " w = false -> classes w = [w].
Proof.
  induction w as [|a w IH]; intros Hfree; [reflexivity|].
  apply space_free_cons in Hfree. destruct Hfree as [Ha Hw].
  cbn [classes]. now rewrite Ha, (IH Hw).
Qed.

Lemma classes_app_space (w x : string) :
  contains " " w = false ->
  classes (w ++ " " ++ x) = w :: classes x.
Proof.
  induction w as [|a w IH]; intros Hfree; [reflexivity|].
  apply space_free_cons in Hfree. destruct Hfree as [Ha Hw].
  cbn [append classes]. rewrite Ha. cbn [append] in IH. now rewrite (IH Hw).
Qed.

(** Splitting a joined line on its spaces gives the words back. *)
Lemma classes_join_spaces (w : string) (more : list string) :
  Forall (fun x => contains " " x = false) (w :: more) ->
  classes (join_spaces (w :: more)) = w :: more.
Proof.
  revert w. induction more as [|w' more IH]; intros w Hfree;
    inversion Hfree as [|? ? Hw Hmore]; subst.
  - now apply classes_space_free.
  - change (join_spaces (w :: w' :: more))
      with (w ++ " " ++ join_spaces (w' :: more)).
    rewrite (classes_app_space _ _ Hw). now rewrite (IH w' Hmore).
Qed.

(** X18: the two-step normalisation of the class text, [strip] and then the
    substitution of every whitespace run by one space, gives the
    whitespace-separated fields of the text joined by single spaces. So the
    collapsed string splits on its spaces into exactly those fields, none
    of them empty: it has no leading, trailing or doubled space; and it is
    the empty string when the text is blank. *)
Theorem collapse_joins_the_fields (cls_text : string) :
  collapse cls_text = join_spaces (split_fields (glyphs cls_text)) /\
  Forall (fun w => truthy w = true /\ contains " " w = false)
         (split_fields (glyphs cls_text)) /\
  classes (collapse cls_text) =
    match split_fields (glyphs cls_text) with
    | [] => [""]
    | w :: more => w :: more
    end.
Proof.
  assert (Hfields : Forall (fun w => truthy w = true /\ contains " " w = false)
                           (split_fields (glyphs cls_text))).
  { unfold split_fields. apply Forall_forall. intros w Hin.
    apply filter_In in Hin. destruct Hin as [Hin Htruthy].
    split; [exact Htruthy|].
    pose proof (pieces_space_free _ (glyphs_from_no_space_byte cls_text 0))
      as Hfree.
    rewrite Forall_forall in Hfree. now apply Hfree. }
  split; [apply collapse_join|]. split; [exact Hfields|].
  rewrite collapse_join.
  destruct (split_fields (glyphs cls_text)) as [|w more]; [reflexivity|].
  apply classes_join_spaces.
  eapply Forall_impl; [|exact Hfields]. now intros x [_ Hx].
Qed.

Lemma first_class_blank (tokens : list string) :
  Forall (fun k => truthy k = true) tokens ->
  first_class tokens [""] = first_class tokens [].
Proof.
  induction 1 as [|k tokens Hk _ IH]; [reflexivity|].
  cbn [first_class existsb]. destruct k; [discriminate Hk | exact IH].
Qed.

(** X19: from the raw class text to the height: when, after collapsing, a table
    key occurs only as a whole class and the height variable is absent, the
    derived height is the pixel value of the first table key that is one of
    the whitespace-separated fields of the raw text, or the placeholder
    when none is; how the fields are spaced makes no difference. *)
Theorem height_of_raw_class_text (raw : string) :
  keys_only_as_classes (collapse raw) = true ->
  h_var (collapse raw) = false ->
  height_px (collapse raw) =
    match first_class (keys TW_H_MAP) (split_fields (glyphs raw)) with
    | Some token => dict_get TW_H_MAP token "unknown"
    | None => HEIGHT_DEFAULT
    end.
Proof.
  intros Honly Hvar. rewrite (height_px_exact _ Honly Hvar).
  unfold exact_token. rewrite collapse_join.
  pose proof (pieces_space_free _ (glyphs_from_no_space_byte raw 0)) as Hfree.
  assert (Hfields : Forall (fun x => contains " " x = false)
                           (split_fields (glyphs raw))).
  { unfold split_fields. apply Forall_forall. intros w Hin.
    apply filter_In in Hin. rewrite Forall_forall in Hfree.
    now apply Hfree. }
  destruct (split_fields (glyphs raw)) as [|w more].
  - cbn [join_spaces classes]. rewrite first_class_blank; [reflexivity|].
    apply Forall_forall. intros k Hk. now apply keys_truthy.
  - now rewrite (classes_join_spaces w more Hfields).
Qed.

Lemma height_of_raw_class_text_witness :
  keys_only_as_classes
    (collapse ("  rounded" ++ nl ++ "    h-10   px-2 ")) = true /\
  collapse ("  rounded" ++ nl ++ "    h-10   px-2 ") = "rounded h-10 px-2" /\
  height_px (collapse ("  rounded" ++ nl ++ "    h-10   px-2 ")) = "40px".
Proof.
  split; [reflexivity|]. split; [reflexivity|].
  rewrite (height_of_raw_class_text
             ("  rounded" ++ nl ++ "    h-10   px-2 ") eq_refl eq_refl).
  reflexivity.
Defined.

End ButtonSizesSpec.

(** ** Typography verification stub *)

Module VerifyTypographySpec.
Import Py VerifyTypography.

Lemma check_known (test : test_case) (size : string) :
  dict_index EXPECTED_SIZES (expected test) = Returned size ->
  exists v, check test = Returned (v, true) /\ echoes test v.
Proof.
  intros Hsize. unfold check. rewrite Hsize, String.eqb_refl.
  eexists; split; [reflexivity|]. unfold echoes; simpl. auto.
Qed.

(** On any table whose tokens are all keys of [EXPECTED_SIZES], the loop
    runs to its end, adds one echoing verdict per entry, in order, and
    leaves [all_pass] as it found it. *)
Lemma run_cases_echo (tests : list test_case) :
  Forall (fun t => exists size,
              dict_index EXPECTED_SIZES (expected t) = Returned size) tests ->
  forall results all_pass,
  exists rows,
    run_cases tests results all_pass = Returned ((results ++ rows)%list, all_pass) /\
    Forall2 echoes tests rows.
Proof.
  induction 1 as [|t tests [size Hsize] _ IH]; intros results all_pass.
  - exists []. simpl. rewrite app_nil_r. auto.
  - destruct (check_known t size Hsize) as [v [Hcheck Hecho]].
    destruct (IH (results ++ [v])%list (all_pass && true)) as [rows [Hrun Hall]].
    exists (v :: rows). simpl. rewrite Hcheck, Hrun.
    rewrite andb_true_r, <- app_assoc. simpl.
    split; [reflexivity|]. now constructor.
Qed.

Lemma TEST_CASES_known :
  Forall (fun t => exists size,
              dict_index EXPECTED_SIZES (expected t) = Returned size) TEST_CASES.
Proof. repeat constructor; eexists; reflexivity. Qed.

(** When the stand-in is asked about a token of the scale it answers the
    expected size of that token; [verify_typography] does not ask it. *)
Lemma get_computed_style_via_js_token (url token size : string) :
  dict_index EXPECTED_SIZES token = Returned size ->
  get_computed_style_via_js url token = size.
Proof.
  unfold get_computed_style_via_js.
  induction EXPECTED_SIZES as [|[k v] d IH]; simpl; [discriminate|].
  destruct (String.eqb k token); [now intros [= ->] | exact IH].
Qed.



(** C6 as stated fails: on a machine where the hard-coded evidence path
    cannot be opened for writing, the run ends in an [OSError]. *)
Lemma stub_cannot_fail_counterexample :
  outcome (verify_typography Scenario.elsewhere) = Raised (OSError EVIDENCE_PATH) /\
  saved (verify_typography Scenario.elsewhere) = None.
Proof. split; reflexivity. Qed.

(** C6, amended: the table loop has no error path and always completes;
    a run returns [True] when the evidence file can be opened for writing,
    and otherwise ends in the [OSError] of that [open], which nothing
    catches. *)
Theorem stub_fails_only_on_open (h : host) :
  (exists rows, run_cases TEST_CASES [] true = Returned (rows, true)) /\
  outcome (verify_typography h) =
    if writable h EVIDENCE_PATH then Returned true
    else Raised (OSError EVIDENCE_PATH).
Proof.
  destruct (run_cases_echo TEST_CASES TEST_CASES_known [] true)
    as [rows [Hrun _]].
  simpl app in Hrun. split; [now exists rows|].
  unfold verify_typography. rewrite Hrun.
  now destruct (writable h EVIDENCE_PATH).
Qed.

(** *** The stand-in and the loop on other inputs *)

(** X13: the stand-in looks its argument up in the scale: for a token of the
    scale it answers that token's size, for anything else (every CSS
    selector, for one) it answers 14px. *)
Theorem stand_in_answers_from_the_scale (url selector : string) :
  (In selector (keys EXPECTED_SIZES) ->
   In (selector, get_computed_style_via_js url selector) EXPECTED_SIZES) /\
  (~ In selector (keys EXPECTED_SIZES) ->
   get_computed_style_via_js url selector = "14px").
Proof.
  unfold get_computed_style_via_js. split.
  - apply PyFacts.dict_get_hit.
  - apply PyFacts.dict_get_miss.
Qed.

(** X14: on a table with an entry whose token is not in the scale, the loop
    runs through the entries before it and then raises KeyError for that
    token: no verdict of that run is returned. *)
Theorem loop_raises_on_the_first_unknown_token
    (known : list test_case) (t : test_case) (rest : list test_case)
    (results : list verdict) (all_pass : bool) :
  Forall (fun k => In (expected k) (keys EXPECTED_SIZES)) known ->
  ~ In (expected t) (keys EXPECTED_SIZES) ->
  run_cases (known ++ t :: rest) results all_pass
    = Raised (KeyError (expected t)).
Proof.
  intros Hknown Hunknown. revert results all_pass.
  induction Hknown as [|k known Hk _ IH]; intros results all_pass.
  - cbn [app run_cases]. unfold check.
    now rewrite (PyFacts.dict_index_miss _ _ Hunknown).
  - cbn [app run_cases].
    destruct (PyFacts.dict_index_hit _ _ Hk) as [size [Hsize _]].
    destruct (check_known k size Hsize) as [v [Hcheck _]].
    rewrite Hcheck. apply IH.
Qed.

Lemma scale_has_no_4xl : ~ In "text-ui-4xl" (keys EXPECTED_SIZES).
Proof.
  simpl. intros H.
  repeat (destruct H as [H|H]; [discriminate H|]). destruct H.
Defined.

Lemma scale_has_sm : In "text-ui-sm" (keys EXPECTED_SIZES).
Proof. simpl. tauto. Defined.

Lemma loop_raises_on_the_first_unknown_token_witness :
  run_cases [Scenario.label_case; Scenario.heading_case; Scenario.label_case]
            [] true
    = Raised (KeyError "text-ui-4xl").
Proof.
  apply (loop_raises_on_the_first_unknown_token
           [Scenario.label_case] Scenario.heading_case [Scenario.label_case]
           [] true).
  - constructor; [exact scale_has_sm | constructor].
  - exact scale_has_no_4xl.
Defined.

End VerifyTypographySpec.

(** ** Font-size auditor *)

Module MeasureFontSizesSpec.
Import Py MeasureFontSizes.

(** *** Regular selector lists *)

(** On a selector list whose entries all have both keys, the loops over
    what [json.load] returned are the loops over the components, and they
    do not raise. *)
Lemma measure_presets_regular (scales : list (string * float * Z))
    (selectors : list comp) :
  forall d results,
    measure_presets scales (Regular selectors) d results =
    (fst (measure_scales scales selectors d results),
     Returned (snd (measure_scales scales selectors d results))).
Proof.
  induction scales as [|[[label scale] e] rest IH]; intros d results;
    [reflexivity|].
  cbn [measure_presets measure_scales measure_entries set_font_scale].
  destruct (measure_components label e selectors _ results) as [d2 results'].
  apply IH.
Qed.

Lemma try_block_regular (a : args) (h : host) (selectors : list comp)
    (d : driver) :
  try_block a h (Regular selectors) d = session a h selectors d.
Proof.
  unfold try_block, session.
  destruct (load_page d (url a)) as [d1 [[]|e]]; [|reflexivity].
  rewrite measure_presets_regular.
  destruct (measure_scales FONT_SCALES selectors d1 []) as [d2 results].
  reflexivity.
Qed.

Lemma init_driver_chrome (h : host) (headless : bool) :
  init_driver h headless =
    match chrome h headless with
    | Some b => (None, Returned {| remote := b; sent := [] |})
    | None => (orphan h headless, Raised (SystemExit 1))
    end.
Proof.
  unfold init_driver, chrome, orphan. now destruct (launch h headless).
Qed.

(** A run on such a list, once Chrome is up: the [try] block, then
    [quit]. *)
Lemma main_regular (a : args) (h : host) (selectors : list comp) (b : browser) :
  read_config h (config a) = Parsed selectors ->
  chrome h (negb (no_headless a)) = Some b ->
  main a h =
    let (d, o) := session a h selectors {| remote := b; sent := [] |} in
    let (d', quit) := driver_quit d in
    {| commands := sent d';
       markdown := markdown o;
       csv_file := csv_file o;
       abandoned := None;
       exit := match quit with
               | Raised e => Raised e
               | Returned _ => exit o
               end |}.
Proof.
  intros Hconfig Hchrome.
  unfold main, load_selectors. rewrite init_driver_chrome, Hconfig, Hchrome.
  cbn [len]. now rewrite try_block_regular.
Qed.

(** *** The session only grows, and nothing before the end quits *)

Lemma extends_refl (d : driver) : extends d d.
Proof. split; [reflexivity|]. exists []. split; [reflexivity | intros []]. Qed.

Lemma extends_trans (d1 d2 d3 : driver) :
  extends d1 d2 -> extends d2 d3 -> extends d1 d3.
Proof.
  intros [Hr1 [n1 [Hs1 Hq1]]] [Hr2 [n2 [Hs2 Hq2]]]. split; [congruence|].
  exists (n2 ++ n1)%list. split.
  - now rewrite Hs2, Hs1, app_assoc.
  - intros Hin. apply in_app_or in Hin. tauto.
Qed.

Lemma extends_send (d : driver) (c : command) :
  c <> Quit -> extends d (send d c).
Proof.
  intros Hc. split; [reflexivity|]. exists [c]. split; [reflexivity|].
  intros [H|[]]. congruence.
Qed.

Lemma measure_component_fst (label : string) (e : Z) (d : driver) (c : comp) :
  fst (measure_component label e d c) = send d (Probe (selector c)).
Proof.
  unfold measure_component, measure_font_size.
  destruct (on_probe _ _) as [size|[| |msg]]; reflexivity.
Qed.

Lemma measure_component_pair (label : string) (e : Z) (d : driver) (c : comp) :
  pair_of (snd (measure_component label e d c)) = (label, name c, selector c).
Proof.
  unfold measure_component, measure_font_size.
  destruct (on_probe _ _) as [size|[| |msg]]; reflexivity.
Qed.

(** The inner loop appends one row per component, in order, whatever the
    probes answer. *)
Lemma measure_components_rows (label : string) (e : Z) (selectors : list comp) :
  forall d results,
  exists d' rows,
    measure_components label e selectors d results = (d', (results ++ rows)%list) /\
    extends d d' /\
    Forall2 (recorded label e) selectors rows /\
    map pair_of rows = map (fun c => (label, name c, selector c)) selectors.
Proof.
  induction selectors as [|c rest IH]; intros d results; simpl.
  - exists d, []. rewrite app_nil_r.
    split; [reflexivity|]. split; [apply extends_refl|]. split; constructor.
  - destruct (measure_component label e d c) as [d1 r] eqn:Hstep.
    destruct (IH d1 (results ++ [r])%list) as [d' [rows [Hrun [Hext [Hrec Hmap]]]]].
    exists d', (r :: rows). rewrite Hrun, <- app_assoc. simpl.
    assert (Hd1 : d1 = send d (Probe (selector c))).
    { now rewrite <- (measure_component_fst label e d c), Hstep. }
    assert (Hr : r = snd (measure_component label e d c)) by now rewrite Hstep.
    split; [reflexivity|]. split; [|split].
    + apply extends_trans with d1; [|exact Hext].
      rewrite Hd1. apply extends_send. discriminate.
    + constructor; [now exists d | exact Hrec].
    + now rewrite Hr, measure_component_pair, Hmap.
Qed.

Lemma recorded_from_loop (scales : list (string * float * Z))
    (label : string) (scale : float) (e : Z) (selectors : list comp)
    (rows : list row) :
  In (label, scale, e) scales ->
  Forall2 (recorded label e) selectors rows ->
  Forall (from_loop scales selectors) rows.
Proof.
  intros Hin Hrec.
  induction Hrec as [|c r cs rs Hr _ IHrec]; constructor.
  - exists label, scale, e, c. simpl. auto.
  - eapply Forall_impl; [|exact IHrec].
    intros r' [l' [s' [e' [c' [H [Hc Hr']]]]]].
    exists l', s', e', c'. simpl. auto.
Qed.

Lemma measure_scales_rows (scales : list (string * float * Z))
    (selectors : list comp) :
  forall d results,
  exists d' rows,
    measure_scales scales selectors d results = (d', (results ++ rows)%list) /\
    extends d d' /\
    Forall (from_loop scales selectors) rows /\
    map pair_of rows = pairs scales selectors.
Proof.
  induction scales as [|[[label scale] e] rest IH]; intros d results; simpl.
  - exists d, []. rewrite app_nil_r.
    split; [reflexivity|]. split; [apply extends_refl|]. split; constructor.
  - set (d1 := send d (SetScale scale)).
    destruct (measure_components_rows label e selectors d1 results)
      as [d2 [rows1 [Hrun1 [Hext1 [Hrec1 Hmap1]]]]].
    rewrite Hrun1.
    destruct (IH d2 (results ++ rows1)%list) as [d' [rows2 [Hrun2 [Hext2 [Hrec2 Hmap2]]]]].
    exists d', (rows1 ++ rows2)%list. rewrite Hrun2, <- app_assoc.
    split; [reflexivity|]. split; [|split].
    + apply extends_trans with d1; [apply extends_send; discriminate|].
      now apply extends_trans with d2.
    + apply Forall_app. split.
      * apply recorded_from_loop with label scale e; [now left | exact Hrec1].
      * eapply Forall_impl; [|exact Hrec2].
        intros r' [l' [s' [e' [c' [H [Hc Hr']]]]]].
        exists l', s', e', c'. simpl. auto.
    + unfold pairs. simpl. now rewrite map_app, Hmap1, Hmap2.
Qed.

Lemma length_pairs (scales : list (string * float * Z)) (selectors : list comp) :
  List.length (pairs scales selectors) =
  (List.length scales * List.length selectors)%nat.
Proof.
  unfold pairs. induction scales as [|s scales IH]; simpl; [reflexivity|].
  now rewrite length_app, length_map, IH.
Qed.

Lemma measure_scales_length (scales : list (string * float * Z))
    (selectors : list comp) (d : driver) :
  List.length (snd (measure_scales scales selectors d [])) =
  (List.length scales * List.length selectors)%nat.
Proof.
  destruct (measure_scales_rows scales selectors d [])
    as [d' [rows [Hrun [_ [_ Hpairs]]]]].
  simpl app in Hrun. rewrite Hrun. cbn [snd].
  now rewrite <- (length_map pair_of), Hpairs, length_pairs.
Qed.


(** *** Rows of measured and of unmeasured components *)

Lemma passed_count_app (xs ys : list row) :
  passed_count (xs ++ ys) = (passed_count xs + passed_count ys)%Z.
Proof.
  induction xs as [|x xs IH]; cbn [passed_count app]; [reflexivity|].
  rewrite IH. destruct (String.eqb (Status x) CHECK); lia.
Qed.

Lemma total_count_app (xs ys : list row) :
  total_count (xs ++ ys) = (total_count xs + total_count ys)%Z.
Proof. unfold total_count. rewrite length_app. lia. Qed.

(** The passed count counts the rows whose status is the check mark, and
    the failed count all the others. *)
Lemma passed_count_filter (results : list row) :
  passed_count results =
  Z.of_nat (List.length (filter (fun r => String.eqb (Status r) CHECK) results)).
Proof.
  induction results as [|r rest IH]; cbn [passed_count filter];
    [reflexivity|].
  destruct (String.eqb (Status r) CHECK); cbn [List.length]; lia.
Qed.

Lemma failed_count_filter (results : list row) :
  failed_count results =
  Z.of_nat (List.length
              (filter (fun r => negb (String.eqb (Status r) CHECK)) results)).
Proof.
  unfold failed_count, total_count.
  induction results as [|r rest IH]; cbn [passed_count filter List.length];
    [reflexivity|].
  destruct (String.eqb (Status r) CHECK); cbn [negb List.length]; lia.
Qed.

(** C1 as stated fails on both counts. At preset S (12px), a component
    measured at 13.3125px gets the deviation 1.31, not the difference
    1.3125, and the row records it as +1.3; a component measured at
    13.00390625px passes although the difference, 1.00390625, is above
    1.0. *)
Lemma deviation_is_difference_counterexample :
  (on_probe Scenario.steady [Probe ".coarse"] = Got 13.3125%float /\
   PrimFloat.eqb (abweichung 13.3125%float 12)
                 (PrimFloat.sub 13.3125%float (float_of_int 12)) = false /\
   Abweichung (snd (measure_component "S" 12 (Scenario.fresh Scenario.steady)
                                      Scenario.coarse)) = "+1.3") /\
  (on_probe Scenario.steady [Probe ".fine"] = Got 13.00390625%float /\
   Status (snd (measure_component "S" 12 (Scenario.fresh Scenario.steady)
                                  Scenario.fine)) = CHECK /\
   PrimFloat.leb
     (PrimFloat.abs (PrimFloat.sub 13.00390625%float (float_of_int 12)))
     1%float = false).
Proof. repeat split; vm_compute; reflexivity. Qed.

(** C1, amended: for every row whose measurement succeeded, the deviation
    is measured size minus expected size rounded to two decimals, the row
    records it with a sign and one decimal, and the row's status is the
    check mark if and only if the absolute value of that rounded deviation
    is at most 1.0 (and the cross otherwise). *)
Theorem measured_row_deviation_and_status (label : string) (expected_px : Z)
    (d : driver) (c : comp) (measured : float) :
  on_probe (remote d) (Probe (selector c) :: sent d) = Got measured ->
  let r := snd (measure_component label expected_px d c) in
  abweichung measured expected_px
    = round2 (PrimFloat.sub measured (float_of_int expected_px)) /\
  Gemessene_Groesse r = format_1f false measured /\
  Abweichung r = format_1f true (abweichung measured expected_px) /\
  (Status r = CHECK <->
   PrimFloat.leb (PrimFloat.abs (abweichung measured expected_px)) 1%float
     = true) /\
  (Status r = CROSS <->
   PrimFloat.leb (PrimFloat.abs (abweichung measured expected_px)) 1%float
     = false).
Proof.
  intros Hprobe r. subst r.
  unfold measure_component, measure_font_size. cbn [send sent remote].
  rewrite Hprobe. cbn [snd Gemessene_Groesse Abweichung Status].
  split; [reflexivity|]. split; [reflexivity|]. split; [reflexivity|].
  destruct (PrimFloat.leb (PrimFloat.abs (abweichung measured expected_px))
                          1%float);
    split; split; (reflexivity || discriminate).
Qed.

Lemma measured_row_deviation_and_status_witness :
  on_probe Scenario.steady [Probe ".coarse"] = Got 13.3125%float /\
  Status (snd (measure_component "S" 12 (Scenario.fresh Scenario.steady)
                                 Scenario.coarse)) = CROSS.
Proof.
  split; [reflexivity|].
  apply (measured_row_deviation_and_status "S" 12
           (Scenario.fresh Scenario.steady) Scenario.coarse 13.3125%float
           eq_refl).
  vm_compute. reflexivity.
Defined.

(** C4 as stated fails: for a selector that matches nothing within the
    wait, the row's status is the cross, and the word the probe reports,
    shown in the measured-size column, is Timeout; neither is the status of
    a lookup that raised NoSuchElementException. *)
Lemma timeout_row_status_counterexample :
  on_probe Scenario.steady [Probe "#missing"] = Threw TimeoutException /\
  Status (snd (measure_component "M" 14 (Scenario.fresh Scenario.steady)
                                 Scenario.ghost)) = "✗" /\
  Gemessene_Groesse (snd (measure_component "M" 14
                            (Scenario.fresh Scenario.steady)
                            Scenario.ghost)) = "Timeout" /\
  "✗" <> "Nicht gefunden" /\ "✗" <> "not found" /\
  "Timeout" <> "Nicht gefunden" /\ "Timeout" <> "not found".
Proof. repeat split; try reflexivity; discriminate. Qed.

(** C4, amended: for every configured selector that matches no element
    within the wait budget, the recorded row has the cross as status,
    Timeout as measured size and the timeout message as deviation; it adds
    nothing to the passed count and one to the failed count. *)
Theorem timeout_row_counts_as_failed (label : string) (expected_px : Z)
    (d : driver) (c : comp) :
  on_probe (remote d) (Probe (selector c) :: sent d) = Threw TimeoutException ->
  let r := snd (measure_component label expected_px d c) in
  Status r = CROSS /\
  Gemessene_Groesse r = "Timeout" /\
  Abweichung r = "Element nicht innerhalb von 3s gefunden" /\
  (forall before after,
      passed_count (before ++ r :: after) =
        (passed_count before + passed_count after)%Z /\
      failed_count (before ++ r :: after) =
        (failed_count before + 1 + failed_count after)%Z) /\
  (forall results,
      passed_count results =
        Z.of_nat (List.length
                    (filter (fun r => String.eqb (Status r) CHECK) results)) /\
      failed_count results =
        Z.of_nat (List.length
                    (filter (fun r => negb (String.eqb (Status r) CHECK))
                            results))).
Proof.
  intros Hprobe r. subst r.
  unfold measure_component, measure_font_size. cbn [send sent remote].
  rewrite Hprobe. cbn [snd Gemessene_Groesse Abweichung Status error_or_na truthy].
  split; [reflexivity|]. split; [reflexivity|]. split; [reflexivity|].
  split.
  - intros before after. unfold failed_count.
    rewrite passed_count_app, total_count_app.
    unfold total_count. cbn [passed_count Status List.length].
    replace (String.eqb CROSS CHECK) with false by reflexivity.
    rewrite Nat2Z.inj_succ. split; lia.
  - intros results. split;
      [apply passed_count_filter | apply failed_count_filter].
Qed.

Lemma timeout_row_counts_as_failed_witness :
  on_probe Scenario.steady [Probe "#missing"] = Threw TimeoutException /\
  Status (snd (measure_component "M" 14 (Scenario.fresh Scenario.steady)
                                 Scenario.ghost)) = CROSS.
Proof.
  split; [reflexivity|].
  apply (timeout_row_counts_as_failed "M" 14
           (Scenario.fresh Scenario.steady) Scenario.ghost eq_refl).
Defined.

(** *** The whole run *)

Lemma load_page_extends (d : driver) (u : string) :
  extends d (fst (load_page d u)).
Proof.
  assert (Hget : forall d0, extends d0 (send d0 (Get u)))
    by (intros; apply extends_send; discriminate).
  assert (Hwait : forall d0, extends d0 (send d0 WaitBody))
    by (intros; apply extends_send; discriminate).
  unfold load_page, driver_get, wait_body.
  destruct (answer (on_get (remote d) (sent (send d (Get u))))) as [[]|e1].
  - cbn [fst]. eapply extends_trans; [apply Hget | apply Hwait].
  - destruct (answer (on_get (remote (send d (Get u))) _)) as [[]|e2]; cbn [fst].
    + eapply extends_trans; [apply Hget|].
      eapply extends_trans; [apply Hget | apply Hwait].
    + eapply extends_trans; [apply Hget | apply Hget].
Qed.

(** The [try] block sends no [Quit], however it ends. *)
Lemma session_extends (a : args) (h : host) (selectors : list comp) (d : driver) :
  extends d (fst (session a h selectors d)).
Proof.
  unfold session.
  pose proof (load_page_extends d (url a)) as Hload.
  destruct (load_page d (url a)) as [d1 [[]|e]]; cbn [fst] in *; [|exact Hload].
  destruct (measure_scales_rows FONT_SCALES selectors d1 [])
    as [d2 [rows [Hrun [Hext _]]]].
  rewrite Hrun.
  assert (H12 : extends d d2) by (eapply extends_trans; eassumption).
  destruct (write_markdown a h _) as [md [[]|e]]; [|exact H12].
  destruct (write_csv a h _) as [cs r]. exact H12.
Qed.



(** A table line of the Markdown report shows the eight values of the row
    by their [str()], and the CSV record holds them as [csv.writer] puts
    them down. *)
Lemma md_line_shows_values (r : row) :
  md_line_of_fields (map str_cell (values r)) = Some (md_line r).
Proof. reflexivity. Qed.

Lemma csv_record_holds_values (r : row) :
  csv_record r = map csv_cell (values r).
Proof. reflexivity. Qed.

Lemma csv_cell_is_str (v : cell) : v <> PyNone -> csv_cell v = str_cell v.
Proof. destruct v; [reflexivity | congruence]. Qed.

(** Without a null among its values, a row reads the same in both
    reports. *)
Lemma md_line_shows_csv_record (r : row) :
  ~ In PyNone (values r) ->
  md_line_of_fields (csv_record r) = Some (md_line r).
Proof.
  intros Hnone. rewrite csv_record_holds_values, <- md_line_shows_values.
  f_equal. apply map_ext_in. intros v Hv. apply csv_cell_is_str.
  intros ->. contradiction.
Qed.

Lemma main_reports (a : args) (h : host) (selectors : list comp) (b : browser) :
  read_config h (config a) = Parsed selectors ->
  chrome h (negb (no_headless a)) = Some b ->
  markdown (main a h)
    = markdown (snd (session a h selectors {| remote := b; sent := [] |})) /\
  csv_file (main a h)
    = csv_file (snd (session a h selectors {| remote := b; sent := [] |})).
Proof.
  intros Hconfig Hchrome.
  rewrite (main_regular a h selectors b Hconfig Hchrome).
  destruct (session a h selectors _) as [d o]. split; reflexivity.
Qed.

(** What the [try] block leaves when it gets as far as the CSV report. *)
Lemma session_reports (a : args) (h : host) (selectors : list comp)
    (d : driver) (records : list (list string)) :
  csv_file (snd (session a h selectors d)) = Some records ->
  exists results p q,
    markdown (snd (session a h selectors d))
      = Some (md_preamble a h ++ map md_line results
              ++ md_summary results p q)%list /\
    records = CSV_HEADER :: map csv_record results.
Proof.
  unfold session.
  destruct (load_page d (url a)) as [d1 [[]|e]]; [|discriminate].
  destruct (measure_scales FONT_SCALES selectors d1 []) as [d2 results].
  unfold write_markdown, write_csv.
  destruct (writable h (output a)); [|discriminate].
  destruct (true_div (100 * passed_count results) (total_count results))
    as [p|e]; [|discriminate].
  destruct (true_div _ (total_count results)) as [q|e]; [|discriminate].
  destruct (writable h (csv a)); [|discriminate].
  cbn [snd csv_file markdown]. intros [= <-].
  exists results, p, q. split; [|reflexivity].
  unfold md_summary, failed_count. rewrite <- !app_assoc. reflexivity.
Qed.

Lemma measure_presets_irregular (label : string) (scale : float) (e : Z)
    (rest : list (string * float * Z)) (good : list comp) (bad : breakage)
    (more : nat) (d : driver) (results : list row) :
  measure_presets ((label, scale, e) :: rest) (Irregular good bad more) d
    results =
  (fst (measure_components label e good (send d (SetScale scale)) results),
   Raised (raised_by bad)).
Proof.
  cbn [measure_presets measure_entries set_font_scale].
  now destruct (measure_components label e good _ results).
Qed.

(** On anything but a regular selector list the [try] block opens no
    report. *)
Lemma try_block_irregular_reports (a : args) (h : host) (good : list comp)
    (bad : breakage) (more : nat) (d : driver) :
  markdown (snd (try_block a h (Irregular good bad more) d)) = None /\
  csv_file (snd (try_block a h (Irregular good bad more) d)) = None.
Proof.
  unfold try_block.
  destruct (load_page d (url a)) as [d1 [[]|e]]; [|split; reflexivity].
  unfold FONT_SCALES. rewrite measure_presets_irregular. split; reflexivity.
Qed.

(** A report of a run comes from a regular selector list and a session. *)
Lemma report_needs_a_regular_run (a : args) (h : host) :
  markdown (main a h) <> None \/ csv_file (main a h) <> None ->
  exists selectors b,
    read_config h (config a) = Parsed selectors /\
    chrome h (negb (no_headless a)) = Some b.
Proof.
  unfold main, load_selectors. rewrite init_driver_chrome.
  destruct (read_config h (config a)) as [| | | | |selectors|good bad more];
    cbn [len markdown csv_file]; try (intros [H|H]; congruence).
  - destruct (chrome h (negb (no_headless a))) as [b|];
      cbn [markdown csv_file]; [eauto | intros [H|H]; congruence].
  - destruct (chrome h (negb (no_headless a))) as [b|];
      cbn [markdown csv_file]; [|intros [H|H]; congruence].
    destruct (try_block_irregular_reports a h good bad more
                {| remote := b; sent := [] |}) as [Hmd Hcsv].
    destruct (try_block a h (Irregular good bad more) _) as [d o].
    cbn [snd] in Hmd, Hcsv. unfold driver_quit. cbn [markdown csv_file].
    intros [H|H]; congruence.
Qed.

(** C8 as stated fails on a config entry whose description is a JSON null:
    the run writes both reports, and the description of each of its rows
    reads None in the Markdown table and is an empty field in the CSV
    record. *)
Lemma null_description_counterexample :
  (exists written,
      markdown (main Scenario.defaults
                  (Scenario.machine Scenario.steady [Scenario.undescribed]))
        = Some written /\
      nth_error written 6 =
        Some ("| Toolbar | None | `.toolbar` | S | 14.0 | 12 | ✗ | +2.0 |"
              ++ nl)) /\
  (exists records,
      csv_file (main Scenario.defaults
                  (Scenario.machine Scenario.steady [Scenario.undescribed]))
        = Some records /\
      nth_error records 1 =
        Some ["Toolbar"; ""; ".toolbar"; "S"; "14.0"; "12"; "✗"; "+2.0"]).
Proof.
  split; eexists; (split; [vm_compute; reflexivity | reflexivity]).
Qed.

(** C8, amended: whenever a run writes the CSV report, the Markdown report
    of that run is complete too, its table and the CSV records come from
    one results list, so the two hold the same number of rows; and row by
    row both show the same eight values in the same column order, the
    Markdown line by their [str()] and the CSV record as [csv.writer] puts
    them down. These two texts are the same for every value but a JSON null
    (of a name, selector or description), which reads None in Markdown and
    is an empty field in CSV; so a row without a null has the same eight
    field texts in both reports. *)
Theorem markdown_and_csv_hold_the_same_rows (a : args) (h : host)
    (records : list (list string)) :
  csv_file (main a h) = Some records ->
  exists results p q,
    markdown (main a h)
      = Some (md_preamble a h ++ map md_line results
              ++ md_summary results p q)%list /\
    records = CSV_HEADER :: map csv_record results /\
    List.length (map md_line results) = List.length (map csv_record results) /\
    Forall2 (fun line record =>
               exists r,
                 md_line_of_fields (map str_cell (values r)) = Some line /\
                 record = map csv_cell (values r) /\
                 (~ In PyNone (values r) ->
                  md_line_of_fields record = Some line))
            (map md_line results) (map csv_record results) /\
    (forall v, v <> PyNone -> csv_cell v = str_cell v) /\
    str_cell PyNone = "None" /\ csv_cell PyNone = "".
Proof.
  intros Hcsv.
  destruct (report_needs_a_regular_run a h) as [selectors [b [Hconfig Hchrome]]];
    [right; congruence|].
  destruct (main_reports a h selectors b Hconfig Hchrome) as [Hmd Hcs].
  rewrite Hcs in Hcsv. rewrite Hmd.
  destruct (session_reports a h selectors _ records Hcsv)
    as [results [p [q [Hmarkdown Hrecords]]]].
  exists results, p, q.
  split; [exact Hmarkdown|]. split; [exact Hrecords|].
  split; [now rewrite !length_map|].
  split; [|split; [exact csv_cell_is_str | split; reflexivity]].
  clear. induction results as [|r rest IH]; simpl; constructor; [|exact IH].
  exists r. split; [apply md_line_shows_values|].
  split; [apply csv_record_holds_values | apply md_line_shows_csv_record].
Qed.

Lemma markdown_and_csv_hold_the_same_rows_witness :
  exists records,
    csv_file (main Scenario.defaults
                (Scenario.machine Scenario.steady Scenario.two_components))
      = Some records /\
    exists results p q,
      markdown (main Scenario.defaults
                  (Scenario.machine Scenario.steady Scenario.two_components))
        = Some (md_preamble Scenario.defaults
                  (Scenario.machine Scenario.steady Scenario.two_components)
                ++ map md_line results ++ md_summary results p q)%list /\
      records = CSV_HEADER :: map csv_record results /\
      List.length (map md_line results) = List.length (map csv_record results).
Proof.
  eexists. split; [vm_compute; reflexivity|].
  destruct (markdown_and_csv_hold_the_same_rows Scenario.defaults
              (Scenario.machine Scenario.steady Scenario.two_components)
              _ eq_refl) as [results [p [q [Hmd [Hrec [Hlen _]]]]]].
  exists results, p, q. split; [exact Hmd|]. split; [exact Hrec | exact Hlen].
Defined.

(** A run does get that far: with a non-empty selector list, a browser that
    starts and loads the page, and two writable report paths, both reports
    are written, and the run returns unless [quit] itself raises. *)
Lemma main_writes_both_reports (a : args) (h : host) (selectors : list comp)
    (b : browser) :
  read_config h (config a) = Parsed selectors ->
  selectors <> [] ->
  chrome h (negb (no_headless a)) = Some b ->
  snd (load_page {| remote := b; sent := [] |} (url a)) = Returned tt ->
  writable h (output a) = true ->
  writable h (csv a) = true ->
  (exists records, csv_file (main a h) = Some records) /\
  (on_quit b (commands (main a h)) = None -> exit (main a h) = Returned tt).
Proof.
  intros Hconfig Hsome Hchrome Hload Hout Hcsv.
  rewrite (main_regular a h selectors b Hconfig Hchrome).
  unfold session.
  pose proof (load_page_extends {| remote := b; sent := [] |} (url a)) as Hext0.
  destruct (load_page _ (url a)) as [d1 loaded]. cbn [snd] in Hload. subst loaded.
  cbn [fst] in Hext0.
  pose proof (measure_scales_length FONT_SCALES selectors d1) as Hlen.
  change (List.length FONT_SCALES) with 5%nat in Hlen.
  destruct (measure_scales_rows FONT_SCALES selectors d1 [])
    as [d2' [rows' [Hrun' [[Hremote _] _]]]].
  destruct (measure_scales FONT_SCALES selectors d1 []) as [d2 results].
  cbn [snd] in Hlen. injection Hrun' as -> _.
  assert (Htotal : total_count results <> 0%Z).
  { unfold total_count. rewrite Hlen.
    destruct selectors; [congruence | simpl; lia]. }
  unfold write_markdown, write_csv, true_div. rewrite Hout, Hcsv.
  apply Z.eqb_neq in Htotal. rewrite Htotal.
  unfold driver_quit. cbn [exit csv_file commands send sent remote answer].
  split; [eexists; reflexivity|].
  rewrite Hremote. destruct Hext0 as [-> _]. cbn [remote].
  now intros ->.
Qed.

(** C9: with a valid but empty selector list the run reaches the summary
    with no rows at all and raises ZeroDivisionError at the pass
    percentage: the Markdown report stops after the total, the CSV report
    is never opened, and the run ends in an exception. *)
Theorem empty_config_raises_zero_division (a : args) (h : host) (b : browser) :
  read_config h (config a) = Parsed [] ->
  chrome h (negb (no_headless a)) = Some b ->
  snd (load_page {| remote := b; sent := [] |} (url a)) = Returned tt ->
  writable h (output a) = true ->
  exit (snd (session a h [] {| remote := b; sent := [] |}))
    = Raised ZeroDivisionError /\
  markdown (main a h) = Some (md_preamble a h ++ md_summary_head [])%list /\
  csv_file (main a h) = None /\
  (exists e, exit (main a h) = Raised e) /\
  (on_quit b (commands (main a h)) = None ->
   exit (main a h) = Raised ZeroDivisionError).
Proof.
  intros Hconfig Hchrome Hload Hout.
  rewrite (main_regular a h [] b Hconfig Hchrome).
  unfold session.
  pose proof (load_page_extends {| remote := b; sent := [] |} (url a))
    as [Hremote _].
  destruct (load_page _ (url a)) as [d1 loaded]. cbn [snd] in Hload. subst loaded.
  cbn [fst remote] in Hremote.
  cbn [measure_scales FONT_SCALES measure_components set_font_scale].
  unfold write_markdown. rewrite Hout.
  cbn [passed_count total_count List.length Z.of_nat Z.mul true_div Z.eqb
       map app snd exit markdown csv_file].
  unfold driver_quit. cbn [exit csv_file markdown commands send sent remote].
  rewrite Hremote.
  split; [reflexivity|]. split; [reflexivity|]. split; [reflexivity|].
  split.
  - destruct (answer _) as [[]|e]; eexists; reflexivity.
  - now intros ->.
Qed.

Lemma empty_config_raises_zero_division_witness :
  read_config (Scenario.machine Scenario.steady []) "font_selectors.json"
    = Parsed [] /\
  exit (main Scenario.defaults (Scenario.machine Scenario.steady []))
    = Raised ZeroDivisionError /\
  csv_file (main Scenario.defaults (Scenario.machine Scenario.steady []))
    = None.
Proof.
  destruct (empty_config_raises_zero_division Scenario.defaults
              (Scenario.machine Scenario.steady []) Scenario.steady
              eq_refl eq_refl eq_refl eq_refl)
    as [_ [_ [Hcsv [_ Hexit]]]].
  split; [reflexivity|]. split; [apply Hexit; reflexivity | exact Hcsv].
Defined.

(** *** What the browser is asked, and when *)












(** *** How a run ends *)





(** The [try] block on whatever [json.load] returned. *)
Lemma try_block_extends (a : args) (h : host) (doc : document) (d : driver) :
  extends d (fst (try_block a h doc d)).
Proof.
  destruct doc as [selectors|good bad more|].
  - rewrite try_block_regular. apply session_extends.
  - unfold try_block.
    pose proof (load_page_extends d (url a)) as Hload.
    destruct (load_page d (url a)) as [d1 [[]|e]]; cbn [fst] in *;
      [|exact Hload].
    unfold FONT_SCALES. rewrite measure_presets_irregular. cbn [fst].
    eapply extends_trans; [exact Hload|].
    apply (extends_trans _ (send d1 (SetScale 0.875%float)) _);
      [apply extends_send; discriminate|].
    destruct (measure_components_rows "S" 12 good
                (send d1 (SetScale 0.875%float)) [])
      as [d' [rows [Hrun [Hext _]]]].
    rewrite Hrun. exact Hext.
  - unfold try_block.
    pose proof (load_page_extends d (url a)) as Hload.
    destruct (load_page d (url a)) as [d1 [[]|e]]; cbn [fst] in *;
      [|exact Hload].
    cbn. eapply extends_trans; [exact Hload|].
    apply extends_send. discriminate.
Qed.


(** A run whose config loaded and can be counted, once Chrome is up. *)
Lemma main_loaded (a : args) (h : host) (doc : document) (n : nat)
    (b : browser) :
  load_selectors h (config a) = Returned doc ->
  len doc = Returned n ->
  chrome h (negb (no_headless a)) = Some b ->
  main a h =
    let (d, o) := try_block a h doc {| remote := b; sent := [] |} in
    let (d', quit) := driver_quit d in
    {| commands := sent d';
       markdown := markdown o;
       csv_file := csv_file o;
       abandoned := None;
       exit := match quit with
               | Raised e => Raised e
               | Returned _ => exit o
               end |}.
Proof.
  intros Hload Hlen Hchrome. unfold main.
  now rewrite init_driver_chrome, Hload, Hlen, Hchrome.
Qed.



(** X20: the [finally] holds whatever the config held: once the config is
    loaded and counted and Chrome is up, the last command the browser
    receives is [Quit] and it is the only [Quit] of the run, also when an
    entry of the config breaks the loop with KeyError or TypeError. *)
Theorem quit_whatever_the_config_holds (a : args) (h : host)
    (doc : document) (n : nat) (b : browser) :
  load_selectors h (config a) = Returned doc ->
  len doc = Returned n ->
  chrome h (negb (no_headless a)) = Some b ->
  exists earlier,
    commands (main a h) = Quit :: earlier /\ ~ In Quit earlier.
Proof.
  intros Hload Hlen Hchrome.
  rewrite (main_loaded a h doc n b Hload Hlen Hchrome).
  pose proof (try_block_extends a h doc {| remote := b; sent := [] |})
    as [_ [new [Hsent Hnew]]].
  destruct (try_block a h doc _) as [d o]. cbn [fst] in Hsent.
  unfold driver_quit. cbn [commands send sent].
  exists (sent d). split; [reflexivity|].
  rewrite Hsent. cbn [sent]. now rewrite app_nil_r.
Qed.

Lemma quit_whatever_the_config_holds_witness :
  exit (main Scenario.defaults Scenario.ragged)
    = Raised (KeyError "selector") /\
  exists earlier,
    commands (main Scenario.defaults Scenario.ragged) = Quit :: earlier /\
    ~ In Quit earlier.
Proof.
  split; [reflexivity|].
  apply (quit_whatever_the_config_holds Scenario.defaults Scenario.ragged
           (Irregular [Scenario.ghost] (MissingKey "selector") 0) 2
           Scenario.steady eq_refl eq_refl eq_refl).
Defined.
















(** *** Rows, once more *)

(** X8: a probe that raises still yields a row: its status is the cross, its
    measured-size cell names the kind of failure, and its deviation cell
    carries the message, or N/A when the exception has none; neither cell
    is ever left blank. *)
Theorem failed_probe_row_names_the_failure (label : string) (expected_px : Z)
    (d : driver) (c : comp) (f : fault) :
  on_probe (remote d) (Probe (selector c) :: sent d) = Threw f ->
  let r := snd (measure_component label expected_px d c) in
  Status r = CROSS /\
  Gemessene_Groesse r =
    match f with
    | TimeoutException => "Timeout"
    | NoSuchElementException => "Nicht gefunden"
    | OtherException _ => "Fehler"
    end /\
  Abweichung r =
    match f with
    | TimeoutException => "Element nicht innerhalb von 3s gefunden"
    | NoSuchElementException => "Selektor matched kein Element"
    | OtherException msg => if truthy msg then msg else "N/A"
    end /\
  truthy (Gemessene_Groesse r) = true /\
  truthy (Abweichung r) = true.
Proof.
  intros Hprobe r. subst r.
  unfold measure_component, measure_font_size. cbn [send sent remote].
  rewrite Hprobe.
  destruct f as [| |msg]; cbn; try (repeat split; reflexivity).
  destruct msg; repeat split; reflexivity.
Qed.

Lemma failed_probe_row_names_the_failure_witness :
  on_probe Scenario.steady [Probe ".gone"] = Threw NoSuchElementException /\
  Gemessene_Groesse (snd (measure_component "L" 16
                            (Scenario.fresh Scenario.steady) Scenario.gone))
    = "Nicht gefunden".
Proof.
  split; [reflexivity|].
  apply (failed_probe_row_names_the_failure "L" 16
           (Scenario.fresh Scenario.steady) Scenario.gone
           NoSuchElementException eq_refl).
Defined.

(** X9: a row passes only for a size that was really read: its status is the
    check mark exactly when the probe returned a size whose rounded
    deviation from the preset is within 1.0. A probe that raised never
    passes. *)
Theorem pass_needs_a_measurement_within_tolerance (label : string)
    (expected_px : Z) (d : driver) (c : comp) :
  Status (snd (measure_component label expected_px d c)) = CHECK <->
  exists measured,
    on_probe (remote d) (Probe (selector c) :: sent d) = Got measured /\
    PrimFloat.leb (PrimFloat.abs (abweichung measured expected_px)) 1%float
      = true.
Proof.
  unfold measure_component, measure_font_size. cbn [send sent remote].
  destruct (on_probe (remote d) (Probe (selector c) :: sent d))
    as [size|[| |msg]]; cbn [snd Status].
  - destruct (PrimFloat.leb (PrimFloat.abs (abweichung size expected_px))
                            1%float) eqn:Hleb.
    + split; [intros _; now exists size | reflexivity].
    + split; [discriminate|]. intros [m [[= <-] H]]. congruence.
  - split; [discriminate | intros [m [H _]]; discriminate H].
  - split; [discriminate | intros [m [H _]]; discriminate H].
  - split; [discriminate | intros [m [H _]]; discriminate H].
Qed.

Lemma recorded_fields (label : string) (e : Z) (c : comp) (r : row) :
  recorded label e c r ->
  Skalierung r = label /\ Erwartet r = e /\
  Komponente r = name c /\ CSS_Selektor r = selector c /\
  Beschreibung r = match description c with
                   | Some v => v
                   | None => Text ""
                   end /\
  (Status r = CHECK \/ Status r = CROSS).
Proof.
  intros [d ->]. unfold measure_component, measure_font_size.
  destruct (on_probe _ _) as [size|[| |msg]]; cbn;
    repeat (split; [reflexivity|]); auto.
  destruct (PrimFloat.leb _ _); auto.
Qed.

(** X11: every row the loops leave belongs to one preset and one configured
    component: it carries that preset's label and expected size, the
    component's name and selector, one of the two status marks, and as its
    description what [comp.get("description", "")] gives: the value of the
    config as it is, a JSON null included, and the empty string only when
    the entry has no such key. The null then reads None in the Markdown
    table and is an empty field of the CSV record. *)
Theorem every_row_carries_its_preset_and_component (d : driver)
    (selectors : list comp) :
  Forall (fun r =>
            exists label scale e c,
              In (label, scale, e) FONT_SCALES /\ In c selectors /\
              Skalierung r = label /\ Erwartet r = e /\
              Komponente r = name c /\ CSS_Selektor r = selector c /\
              Beschreibung r = match description c with
                               | Some v => v
                               | None => Text ""
                               end /\
              (description c = Some PyNone ->
               str_cell (Beschreibung r) = "None" /\
               csv_cell (Beschreibung r) = "") /\
              (Status r = CHECK \/ Status r = CROSS))
         (snd (measure_scales FONT_SCALES selectors d [])).
Proof.
  destruct (measure_scales_rows FONT_SCALES selectors d [])
    as [d' [rows [Hrun [_ [Hloop _]]]]].
  simpl app in Hrun. rewrite Hrun. cbn [snd].
  eapply Forall_impl; [|exact Hloop].
  intros r [label [scale [e [c [Hs [Hc Hrec]]]]]].
  exists label, scale, e, c. split; [exact Hs|]. split; [exact Hc|].
  destruct (recorded_fields label e c r Hrec)
    as [Hl [He [Hn [Hsel [Hdesc Hstatus]]]]].
  repeat (split; [assumption|]). split; [|exact Hstatus].
  intros Hnull. rewrite Hdesc, Hnull. split; reflexivity.
Qed.

Lemma every_row_carries_its_preset_and_component_witness :
  Forall (fun r => Beschreibung r = PyNone /\ Komponente r = Text "Toolbar")
         (snd (measure_scales FONT_SCALES [Scenario.undescribed]
                 {| remote := Scenario.steady; sent := [] |} [])).
Proof.
  eapply Forall_impl;
    [|exact (every_row_carries_its_preset_and_component
               {| remote := Scenario.steady; sent := [] |}
               [Scenario.undescribed])].
  intros r [label [scale [e [c [_ [[<-|[]] [_ [_ [Hn [_ [Hd _]]]]]]]]]]].
  split; [exact Hd | exact Hn].
Defined.

(** X12: the three numbers of the summary fit together for any results list:
    passed and failed are both between zero and the total, and they add up
    to it. *)
Theorem summary_counts_add_up (results : list row) :
  (0 <= passed_count results <= total_count results)%Z /\
  (0 <= failed_count results <= total_count results)%Z /\
  (passed_count results + failed_count results = total_count results)%Z.
Proof.
  unfold failed_count.
  assert (H : (0 <= passed_count results <= total_count results)%Z).
  { unfold total_count.
    induction results as [|r rest IH]; cbn [passed_count List.length];
      [lia|].
    rewrite Nat2Z.inj_succ. destruct (String.eqb (Status r) CHECK); lia. }
  lia.
Qed.

(** X10: at every preset the tolerance includes its bound, and it is applied to
    the rounded deviation: a size exactly at the expected one, exactly 1px
    off, or 1.00390625px off (which rounds to 1.0) passes; a size
    1.0078125px off (which rounds to 1.01) or 2px off fails. *)
Theorem tolerance_includes_one_pixel (label : string) (scale : float)
    (expected_px : Z) (d : driver) (c : comp) (off : float) :
  In (label, scale, expected_px) FONT_SCALES ->
  on_probe (remote d) (Probe (selector c) :: sent d)
    = Got (PrimFloat.add (float_of_int expected_px) off) ->
  (In off [0; 1; -1; 1.00390625; -1.00390625]%float ->
   Status (snd (measure_component label expected_px d c)) = CHECK) /\
  (In off [1.0078125; -1.0078125; 2; -2]%float ->
   Status (snd (measure_component label expected_px d c)) = CROSS).
Proof.
  intros Hpreset Hprobe.
  unfold measure_component, measure_font_size. cbn [send sent remote].
  rewrite Hprobe. cbn [snd Status]. clear Hprobe.
  simpl in Hpreset.
  split; intros Hoff; simpl in Hoff;
    repeat (destruct Hpreset as [Hpreset|Hpreset];
            [injection Hpreset as <- <- <-|]);
    try contradiction;
    repeat (destruct Hoff as [<-|Hoff]; [vm_compute; reflexivity|]);
    contradiction.
Qed.

Lemma tolerance_includes_one_pixel_witness :
  on_probe Scenario.steady [Probe ".fine"]
    = Got (PrimFloat.add (float_of_int 12) 1.00390625%float) /\
  Status (snd (measure_component "S" 12 (Scenario.fresh Scenario.steady)
                                 Scenario.fine)) = CHECK.
Proof.
  split; [reflexivity|].
  apply (proj1 (tolerance_includes_one_pixel "S" 0.875%float 12
                  (Scenario.fresh Scenario.steady) Scenario.fine
                  1.00390625%float (or_introl eq_refl) eq_refl)).
  simpl. tauto.
Defined.

End MeasureFontSizesSpec.
